(** * channelblam: a shallow embedding of the moderation bot

    The Python sources are [main.py] (the slash command [/blam] and the
    membership events), [idv.py] (identity oracle and bot classifier),
    [db.py] (the SQLite policy store) and [utils.py] (edge-API helpers).

    External services (Slack Web API, the identity endpoint, the cookie
    session endpoint) are the parameters of a [world]: each is a function from
    the request to the response the service gives.  The policy store is a
    value threaded through the handlers together with a trace of the
    observable effects (responses, store writes, kicks, invites, lookups).
    Every [while True] loop over pages is run with the fuel of the world; a
    run that exhausts the fuel ends in [Diverge]. *)

From Stdlib Require Import String Ascii List Bool Arith Lia.
From Stdlib Require Import DecimalString.
Import ListNotations.
Open Scope string_scope.
Open Scope list_scope.

(** ** Python string helpers *)

Definition is_space (c : ascii) : bool :=
  match nat_of_ascii c with
  | 32 | 9 | 10 | 11 | 12 | 13 => true
  | _ => false
  end.

(** [str.split()] without arguments: maximal runs of non-space characters. *)
Fixpoint split_ws_aux (cur : string) (s : string) : list string :=
  match s with
  | EmptyString => if String.eqb cur "" then [] else [cur]
  | String c rest =>
      if is_space c then
        (if String.eqb cur "" then [] else [cur]) ++ split_ws_aux "" rest
      else split_ws_aux (cur ++ String c EmptyString) rest
  end.

Definition split_ws (s : string) : list string := split_ws_aux "" s.

(** [str.lower()] on ASCII letters. *)
Definition lower_ascii (c : ascii) : ascii :=
  let n := nat_of_ascii c in
  if Nat.leb 65 n && Nat.leb n 90 then ascii_of_nat (n + 32) else c.

Fixpoint lower (s : string) : string :=
  match s with
  | EmptyString => EmptyString
  | String c rest => String (lower_ascii c) (lower rest)
  end.

(** [s.split("|", 1)[0]]: the text before the first bar. *)
Fixpoint before_bar (s : string) : string :=
  match s with
  | EmptyString => EmptyString
  | String c rest =>
      if Ascii.eqb c "|"%char then EmptyString else String c (before_bar rest)
  end.

Definition is_upper_or_digit (c : ascii) : bool :=
  let n := nat_of_ascii c in
  (Nat.leb 65 n && Nat.leb n 90) || (Nat.leb 48 n && Nat.leb n 57).

(** [[A-Z0-9]*] followed by the end of the string or by one final newline
    (Python's [$] also matches just before a trailing newline). *)
Fixpoint class_tail (s : string) : option nat :=
  match s with
  | EmptyString => Some 0
  | String c EmptyString =>
      if Ascii.eqb c "010"%char then Some 0
      else if is_upper_or_digit c then Some 1 else None
  | String c rest =>
      if is_upper_or_digit c then option_map S (class_tail rest) else None
  end.

(** [_USER_ID_RE.match(s)] with [_USER_ID_RE = ^[UW][A-Z0-9]{2,}$]. *)
Definition user_id_re_match (s : string) : bool :=
  match s with
  | String c rest =>
      (Ascii.eqb c "U"%char || Ascii.eqb c "W"%char) &&
      match class_tail rest with Some n => Nat.leb 2 n | None => false end
  | EmptyString => false
  end.

Fixpoint drop_last (s : string) : string :=
  match s with
  | EmptyString => EmptyString
  | String _ EmptyString => EmptyString
  | String c rest => String c (drop_last rest)
  end.

Fixpoint ends_with_gt (s : string) : bool :=
  match s with
  | EmptyString => false
  | String c EmptyString => Ascii.eqb c ">"%char
  | String _ rest => ends_with_gt rest
  end.

(** [_parse_mention] of [main.py]. *)
Definition _parse_mention (token : string) : option string :=
  if String.prefix "<@" token && ends_with_gt token then
    let inner := drop_last (substring 2 (String.length token - 2) token) in
    let user_id := before_bar inner in
    if user_id_re_match user_id then Some user_id else None
  else None.

Definition str_of_nat (n : nat) : string :=
  NilZero.string_of_uint (Nat.to_uint n).

Definition mem (x : string) (l : list string) : bool :=
  existsb (String.eqb x) l.

(** ** The policy store ([db.py])

    The three tables [channel_blammed], [channel_whitelist] and
    [channel_filters].  Rows of [channel_blammed] are kept newest first, the
    order of [ORDER BY created_at DESC]. *)

Record database := mkDb {
  channel_blammed : list (string * string);
  channel_whitelist : list (string * string);
  channel_filters : list (string * nat)
}.

Definition pair_eqb (a b : string * string) : bool :=
  String.eqb (fst a) (fst b) && String.eqb (snd a) (snd b).

(** [INSERT OR IGNORE] on a table with primary key [(channel_id, user_id)]. *)
Definition insert_or_ignore (row : string * string) (t : list (string * string)) :=
  if existsb (pair_eqb row) t then t else row :: t.

(** [DELETE FROM ... WHERE channel_id = ? AND user_id = ?]. *)
Definition delete_row (row : string * string) (t : list (string * string)) :=
  filter (fun r => negb (pair_eqb row r)) t.

(** The statements that write to the store. *)
Inductive store_op :=
| SetIdvLevel (channel_id : string) (level : nat)
| AddBlam (channel_id user_id : string)
| RemoveBlam (channel_id user_id : string)
| AddWhitelist (channel_id user_id : string)
| RemoveWhitelist (channel_id user_id : string).

Fixpoint upsert_level (ch : string) (lvl : nat) (t : list (string * nat)) :=
  match t with
  | [] => [(ch, lvl)]
  | (c, l) :: rest =>
      if String.eqb c ch then (c, lvl) :: rest else (c, l) :: upsert_level ch lvl rest
  end.

Definition exec_op (op : store_op) (db : database) : database :=
  match op with
  | SetIdvLevel ch lvl =>
      mkDb (channel_blammed db) (channel_whitelist db) (upsert_level ch lvl (channel_filters db))
  | AddBlam ch u =>
      mkDb (insert_or_ignore (ch, u) (channel_blammed db)) (channel_whitelist db) (channel_filters db)
  | RemoveBlam ch u =>
      mkDb (delete_row (ch, u) (channel_blammed db)) (channel_whitelist db) (channel_filters db)
  | AddWhitelist ch u =>
      mkDb (channel_blammed db) (insert_or_ignore (ch, u) (channel_whitelist db)) (channel_filters db)
  | RemoveWhitelist ch u =>
      mkDb (channel_blammed db) (delete_row (ch, u) (channel_whitelist db)) (channel_filters db)
  end.

(** [SELECT user_id FROM ... WHERE channel_id = ?]. *)
Definition select_users (ch : string) (t : list (string * string)) : list string :=
  map snd (filter (fun r => String.eqb (fst r) ch) t).

Definition list_blammed_db (ch : string) (db : database) : list string :=
  select_users ch (channel_blammed db).

Definition list_whitelisted_db (ch : string) (db : database) : list string :=
  select_users ch (channel_whitelist db).

(** [get_idv_required_level]: the stored level, 0 when the row is absent. *)
Definition get_idv_required_level_db (ch : string) (db : database) : nat :=
  match find (fun r => String.eqb (fst r) ch) (channel_filters db) with
  | Some (_, lvl) => lvl
  | None => 0
  end.

(** ** External services *)

(** Exceptions the handlers distinguish: [SlackApiError] (with the [error]
    field of its response) and any other exception. *)
Inductive exn :=
| SlackApiError (error : string)
| OtherError (what : string).

(** [conversations_members(channel=..., cursor=..., limit=1000)]. The next
    cursor is [""] when absent ([not cursor] holds for both). *)
Inductive members_resp :=
| MembersFail (error : string)
| MembersPage (members : list string) (next_cursor : string).

(** The identity endpoint: a transport failure, or an HTTP response whose
    body is not JSON, or is JSON with an optional [result] field. *)
Inductive idv_body :=
| BodyMalformed
| BodyJson (result : option string).

Inductive idv_resp :=
| IdvTransportError
| IdvResponse (status : nat) (body : idv_body).

(** The cookie-session [conversations.kick] POST of [_kick_xoxc]: it raises
    (missing environment variable, network error, non-JSON body) or yields
    a JSON body with its [ok] flag. *)
Inductive xoxc_resp :=
| XoxcRaise (e : exn)
| XoxcJson (ok : bool) (error : string).

Record world := mkWorld {
  ADMIN_ID : string;
  BOT_USER_ID : string;
  conversations_members : string -> option string -> members_resp;
  (** [conversations_join]: [None] on success, the raised exception else *)
  conversations_join : string -> option exn;
  (** [_user_is_bot_xoxc]: [None] when that path is unavailable or fails *)
  users_info_xoxc : string -> option bool;
  (** [client.users_info]: [None] when it raises *)
  users_info : string -> option bool;
  idv_endpoint : string -> idv_resp;
  kick_xoxc_post : string -> string -> xoxc_resp;
  (** [conversations_kick] with the personal token: [None] on success *)
  kick_personal : string -> string -> option exn;
  (** [conversations_invite]: [None] on success *)
  conversations_invite : string -> string -> option exn;
  fuel : nat;
  (** whether [SLACK_PERSONAL_TOKEN] is set (read by [_env] in [_invite_bot]) *)
  personal_token_set : bool
}.

(** ** Observable effects *)

Inductive credential := Xoxc | PersonalToken.

Inductive event :=
| EvRespond (msg : string)
| EvStore (op : store_op)
| EvKick (channel_id user_id : string)      (** a call of [_kick_if_possible] *)
| EvKickAttempt (cred : credential) (channel_id user_id : string)
| EvInvite (channel_id user_id : string)
| EvJoin (channel_id : string)
| EvListMembers (channel_id : string)
| EvBotLookup (user_id : string)
| EvIdvLookup (user_id : string)
| EvLog (what : string).

Record state := mkState { st_db : database; st_trace : list event }.

(** ** The effect monad: state, exceptions and fuel *)

Inductive res (A : Type) :=
| Ok (a : A)
| Raise (e : exn)
| Diverge.
Arguments Ok {A} a.
Arguments Raise {A} e.
Arguments Diverge {A}.

Definition M (A : Type) := world -> state -> res A * state.

Definition ret {A} (a : A) : M A := fun _ s => (Ok a, s).

Definition bind {A B} (m : M A) (k : A -> M B) : M B :=
  fun w s =>
    match m w s with
    | (Ok a, s') => k a w s'
    | (Raise e, s') => (Raise e, s')
    | (Diverge, s') => (Diverge, s')
    end.

Notation "x <- m ;; k" := (bind m (fun x => k))
  (at level 61, m at next level, right associativity).
Notation "m ;; k" := (bind m (fun _ => k))
  (at level 61, right associativity).

Definition raise {A} (e : exn) : M A := fun _ s => (Raise e, s).
Definition diverge {A} : M A := fun _ s => (Diverge, s).
Definition ask : M world := fun w s => (Ok w, s).
Definition get_db : M database := fun _ s => (Ok (st_db s), s).

Definition emit (e : event) : M unit :=
  fun _ s => (Ok tt, mkState (st_db s) (st_trace s ++ [e])).

(** [try: m except Exception: h]. *)
Definition try_except {A} (m : M A) (h : exn -> M A) : M A :=
  fun w s =>
    match m w s with
    | (Raise e, s') => h e w s'
    | r => r
    end.

(** [try: m except SlackApiError as exc: h]. *)
Definition try_slack {A} (m : M A) (h : string -> M A) : M A :=
  fun w s =>
    match m w s with
    | (Raise (SlackApiError err), s') => h err w s'
    | r => r
    end.

Definition respond (msg : string) : M unit := emit (EvRespond msg).

(** A store statement: executed and committed atomically. *)
Definition store (op : store_op) : M unit :=
  fun _ s => (Ok tt, mkState (exec_op op (st_db s)) (st_trace s ++ [EvStore op])).

Definition list_blammed (ch : string) : M (list string) :=
  db <- get_db ;; ret (list_blammed_db ch db).
Definition list_whitelisted (ch : string) : M (list string) :=
  db <- get_db ;; ret (list_whitelisted_db ch db).
Definition get_idv_required_level (ch : string) : M nat :=
  db <- get_db ;; ret (get_idv_required_level_db ch db).

(** ** [idv.py] *)

(** [idvstatus]: one GET to the identity endpoint.  A non-200 status is
    logged and the body is read all the same; [response.json()] raises on a
    body that is not JSON, and a transport error raises out of the session.
    The TTL cache returns the value the endpoint gave, so it is left out. *)
Definition idvstatus (userid : string) : M (option string) :=
  w <- ask ;;
  emit (EvIdvLookup userid) ;;
  match idv_endpoint w userid with
  | IdvTransportError => raise (OtherError "aiohttp.ClientError")
  | IdvResponse status body =>
      (if Nat.eqb status 200 then ret tt else emit (EvLog "IDV request failed")) ;;
      match body with
      | BodyMalformed => raise (OtherError "aiohttp.ContentTypeError")
      | BodyJson result => ret result
      end
  end.

Definition is_verified_status (r : option string) : bool :=
  match r with
  | Some s => String.eqb s "verified_eligible" || String.eqb s "verified_but_over_18"
  | None => false
  end.

Definition is_idved (userid : string) : M bool :=
  r <- idvstatus userid ;; ret (is_verified_status r).

Definition is_under18_status (r : option string) : bool :=
  match r with
  | Some s => String.eqb s "verified_eligible"
  | None => false
  end.

Definition is_idved_under18 (userid : string) : M bool :=
  r <- idvstatus userid ;; ret (is_under18_status r).

(** [user_is_bot]: the cookie-session path first, then [users_info]; any
    exception gives [False].  The process-lifetime caches return the value
    first obtained, which the deterministic world already gives. *)
Definition user_is_bot (userid : string) : M bool :=
  w <- ask ;;
  emit (EvBotLookup userid) ;;
  match users_info_xoxc w userid with
  | Some b => ret b
  | None =>
      match users_info w userid with
      | Some b => ret b
      | None => emit (EvLog "Error fetching user info") ;; ret false
      end
  end.

(** ** Kicks and invites ([main.py]) *)

Definition _kick_xoxc (channel_id user_id : string) : M unit :=
  w <- ask ;;
  emit (EvKickAttempt Xoxc channel_id user_id) ;;
  match kick_xoxc_post w channel_id user_id with
  | XoxcRaise e => raise e
  | XoxcJson ok _ => if ok then ret tt else emit (EvLog "Kick xoxc failed")
  end.

Definition _kick_if_possible (channel_id user_id : string) : M unit :=
  emit (EvKick channel_id user_id) ;;
  done <- try_except (_kick_xoxc channel_id user_id ;; ret true)
            (fun _ => emit (EvLog "Kick xoxc failed") ;; ret false) ;;
  if done then ret tt else
  w <- ask ;;
  emit (EvKickAttempt PersonalToken channel_id user_id) ;;
  try_slack
    (match kick_personal w channel_id user_id with
     | None => ret tt
     | Some e => raise e
     end)
    (fun err =>
       if String.eqb err "not_in_channel" then ret tt
       else emit (EvLog "Kick failed")).

Definition _invite_user (channel_id user_id : string) : M unit :=
  w <- ask ;;
  emit (EvInvite channel_id user_id) ;;
  try_slack
    (match conversations_invite w channel_id user_id with
     | None => ret tt
     | Some e => raise e
     end)
    (fun err =>
       if String.eqb err "already_in_channel" then ret tt
       else emit (EvLog "Invite failed")).

(** [_invite_bot]: [_env("SLACK_PERSONAL_TOKEN")] raises [RuntimeError]
    before any invite when the variable is unset; with the token given,
    [_invite_user] reads no other variable. *)
Definition _invite_bot (channel_id : string) : M unit :=
  w <- ask ;;
  if personal_token_set w then _invite_user channel_id (BOT_USER_ID w)
  else raise (OtherError "Missing required env var: SLACK_PERSONAL_TOKEN").

(** ** Paginated member listings of [main.py] *)

(** The loop of lines 117-131 and of [_is_channel_manager]: scan the pages
    for [user_id]; a [SlackApiError] ends the scan with [False]. *)
Fixpoint member_scan (n : nat) (channel_id user_id : string) (cursor : option string) : M bool :=
  match n with
  | 0 => diverge
  | S n' =>
      w <- ask ;;
      emit (EvListMembers channel_id) ;;
      match conversations_members w channel_id cursor with
      | MembersFail _ => emit (EvLog "Failed to fetch channel members") ;; ret false
      | MembersPage members next_cursor =>
          if mem user_id members then ret true
          else if String.eqb next_cursor "" then ret false
          else member_scan n' channel_id user_id (Some next_cursor)
      end
  end.

Definition _is_channel_manager (channel_id user_id : string) : M bool :=
  if String.eqb user_id "" then ret false
  else w <- ask ;; member_scan (fuel w) channel_id user_id None.

(** The loop of lines 202-210, 283-290 and 335-342: collect every page
    until the cursor is empty; a [SlackApiError] propagates. *)
Fixpoint collect_members (n : nat) (channel_id : string) (cursor : option string)
    (users : list string) : M (list string) :=
  match n with
  | 0 => diverge
  | S n' =>
      w <- ask ;;
      emit (EvListMembers channel_id) ;;
      match conversations_members w channel_id cursor with
      | MembersFail err => raise (SlackApiError err)
      | MembersPage members next_cursor =>
          if String.eqb next_cursor "" then ret (users ++ members)
          else collect_members n' channel_id (Some next_cursor) (users ++ members)
      end
  end.

Definition list_members (channel_id : string) : M (list string) :=
  w <- ask ;; collect_members (fuel w) channel_id None [].

(** [asyncio.gather]: every awaitable runs; the first exception, if any,
    is raised once they have all been started. *)
Definition attempt {A} (m : M A) : M (res A) :=
  fun w s =>
    match m w s with
    | (Ok a, s') => (Ok (Ok a), s')
    | (Raise e, s') => (Ok (Raise e), s')
    | (Diverge, s') => (Diverge, s')
    end.

Fixpoint run_all {A} (ms : list (M A)) : M (list (res A)) :=
  match ms with
  | [] => ret []
  | m :: rest => r <- attempt m ;; rs <- run_all rest ;; ret (r :: rs)
  end.

Fixpoint first_failure {A} (rs : list (res A)) : res (list A) :=
  match rs with
  | [] => Ok []
  | Ok a :: rest =>
      match first_failure rest with
      | Ok l => Ok (a :: l)
      | r => r
      end
  | Raise e :: _ => Raise e
  | Diverge :: _ => Diverge
  end.

Definition lift_res {A} (r : res A) : M A :=
  match r with
  | Ok a => ret a
  | Raise e => raise e
  | Diverge => diverge
  end.

Definition gather {A} (ms : list (M A)) : M (list A) :=
  rs <- run_all ms ;; lift_res (first_failure rs).

Fixpoint for_each {A} (f : A -> M unit) (l : list A) : M unit :=
  match l with
  | [] => ret tt
  | x :: rest => f x ;; for_each f rest
  end.

(** ** The [/blam] command ([handle_blam]) *)

Record command := mkCommand {
  cmd_channel_id : string;   (** [""] when absent *)
  cmd_user_id : string;
  cmd_text : string          (** [command.get("text") or ""] *)
}.

Definition HELP_TEXT : string :=
  "CHANNELBLAM commands:
- /blam @user — blam and kick a user.
- /blam add @user — same as above.
- /blam remove @user — unblam a user.
- /blam list — list blammed users in this channel.
- /blam idv [required|under18|off] — set IDV requirement.
- /blam idv test [required|under18|off] — show how many would be kicked for that setting.
- /blam whitelist @user — whitelist a user (exempt from blam/IDV).
- /blam whitelist remove @user — remove a user from whitelist.
- /blam whitelist channel — whitelist everyone currently in the channel.
".

Definition mention (u : string) : string := "<@" ++ u ++ ">".

Definition valid_level (level : string) : bool :=
  String.eqb level "required" || String.eqb level "under18" || String.eqb level "off".

(** The [match level] of lines 188-196 and 250-258. *)
Definition levelnum_of (level : string) : nat :=
  if String.eqb level "off" then 0
  else if String.eqb level "required" then 1
  else if String.eqb level "under18" then 2
  else 1.

(** [needs_kick] of the dry run (lines 215-226). *)
Definition needs_kick (levelnum : nat) (whitelisted : list string) (user_id : string) : M nat :=
  w <- ask ;;
  if String.eqb user_id (ADMIN_ID w) || mem user_id whitelisted then ret 0 else
  is_bot <- user_is_bot user_id ;;
  if is_bot || Nat.eqb levelnum 0 then ret 0 else
  if Nat.eqb levelnum 1 then
    ok <- is_idved user_id ;; ret (if ok then 0 else 1)
  else
    ok <- is_idved_under18 user_id ;; ret (if ok then 0 else 1).

Definition sum_nat (l : list nat) : nat := fold_right Nat.add 0 l.

(** [/blam idv test [level]] (lines 179-240). *)
Definition idv_test (channel_id : string) (tokens : list string) : M unit :=
  let level := match tokens with _ :: _ :: t2 :: _ => lower t2 | _ => "required" end in
  if negb (valid_level level) then
    respond "Usage: /blam idv test [required/under18/off], defaults to required"
  else
  let levelnum := levelnum_of level in
  try_except
    (users <- list_members channel_id ;;
     whitelisted <- list_whitelisted channel_id ;;
     kick_flags <- gather (map (needs_kick levelnum whitelisted) users) ;;
     respond (str_of_nat (sum_nat kick_flags) ++
              " users would be kicked if IDV requirement were set to " ++ level ++ "."))
    (fun _ => emit (EvLog "Failed to test IDV requirement") ;;
              respond "Error testing IDV requirement.").

(** The selection loop of the sweep (lines 291-305). *)
Fixpoint sweep_select (levelnum : nat) (channel_id : string) (users : list string) : M (list string) :=
  match users with
  | [] => ret []
  | user_id :: rest =>
      is_bot <- user_is_bot user_id ;;
      if is_bot then sweep_select levelnum channel_id rest else
      is_whitelisted <- list_whitelisted channel_id ;;
      if mem user_id is_whitelisted then sweep_select levelnum channel_id rest else
      w <- ask ;;
      if String.eqb user_id (ADMIN_ID w) then sweep_select levelnum channel_id rest else
      ok1 <- (if Nat.eqb levelnum 1 then is_idved user_id else ret true) ;;
      if negb ok1 then
        toblam <- sweep_select levelnum channel_id rest ;; ret (user_id :: toblam)
      else
      ok2 <- (if Nat.eqb levelnum 2 then is_idved_under18 user_id else ret true) ;;
      if negb ok2 then
        toblam <- sweep_select levelnum channel_id rest ;; ret (user_id :: toblam)
      else sweep_select levelnum channel_id rest
  end.

(** The live sweep run when the level goes from 0 to nonzero (lines 276-316). *)
Definition sweep (channel_id : string) (levelnum : nat) : M unit :=
  users <- list_members channel_id ;;
  toblam <- sweep_select levelnum channel_id users ;;
  _ <- gather (map (_kick_if_possible channel_id) toblam) ;;
  emit (EvLog "Kicked blammed users due to IDV requirement change").

(** [/blam idv [level]] (lines 242-320). *)
Definition idv_set (channel_id : string) (level : string) : M unit :=
  if negb (valid_level level) then
    respond "Usage: /blam idv [required/under18/off], defaults to required"
  else
  let levelnum := levelnum_of level in
  old_level <- get_idv_required_level channel_id ;;
  if Nat.eqb old_level levelnum then
    respond ("IDV requirement is already set to " ++ level ++ " for this channel.")
  else
  try_except
    (store (SetIdvLevel channel_id levelnum) ;;
     respond ("Set IDV requirement to " ++ level ++ " for this channel."))
    (fun _ => emit (EvLog "Failed to set IDV requirement") ;;
              respond "Error setting IDV requirement.") ;;
  if Nat.eqb old_level 0 && Nat.ltb 0 levelnum then
    try_except (sweep channel_id levelnum)
      (fun _ => emit (EvLog "Failed to kick blammed users on IDV change"))
  else ret tt.

Definition idv_cmd (channel_id : string) (tokens : list string) : M unit :=
  let subcmd := match tokens with _ :: t1 :: _ => lower t1 | _ => "required" end in
  if String.eqb subcmd "test" then idv_test channel_id tokens
  else idv_set channel_id subcmd.

(** [/blam whitelist ...] (lines 321-385).  The [remove] branch has no
    [return] after its confirmation and falls through to the single-user
    branch; the returned flag says whether the handler goes on. *)
Definition whitelist_remove (channel_id : string) (rest : list string) : M bool :=
  match rest with
  | [] => respond "Please mention a user, e.g., /blam whitelist remove @user" ;; ret false
  | t2 :: _ =>
      let user_id := before_bar t2 in
      if negb (user_id_re_match user_id) then
        respond "Please mention a user, e.g., /blam whitelist remove @user" ;; ret false
      else
        try_except
          (store (RemoveWhitelist channel_id user_id) ;;
           respond ("Removed whitelist for " ++ mention user_id ++ " in this channel."))
          (fun _ => emit (EvLog "Failed to remove whitelist") ;;
                    respond "Error removing whitelist.") ;;
        ret true
  end.

Definition whitelist_cmd (channel_id : string) (tokens : list string) : M unit :=
  match tokens with
  | [] | [_] =>
      respond "Usage: /blam whitelist @user | /blam whitelist remove @user | /blam whitelist channel"
  | _ :: t1 :: rest =>
      let second := lower t1 in
      if String.eqb second "channel" then
        try_except
          (users <- list_members channel_id ;;
           for_each (fun user_id => store (RemoveBlam channel_id user_id) ;;
                                    store (AddWhitelist channel_id user_id)) users ;;
           respond "Whitelisted all users currently in the channel.")
          (fun _ => emit (EvLog "Failed to whitelist channel") ;;
                    respond "Error whitelisting channel.")
      else
      go_on <- (if String.eqb second "remove" then whitelist_remove channel_id rest
                else ret true) ;;
      if negb go_on then ret tt else
      let user_id := before_bar second in
      if negb (user_id_re_match user_id) then
        respond "Please mention a user, e.g., /blam whitelist @user"
      else
        try_except
          (store (RemoveBlam channel_id user_id) ;;
           store (AddWhitelist channel_id user_id) ;;
           respond ("Whitelisted " ++ mention user_id ++ " in this channel."))
          (fun _ => emit (EvLog "Failed to whitelist user") ;;
                    respond "Error whitelisting user.")
  end.

(** One member of [/blam whitelist channel] (lines 343-345): the blam row
    is deleted, then the whitelist row inserted. *)
Definition whitelist_step (ch : string) (db : database) (u : string) : database :=
  exec_op (AddWhitelist ch u) (exec_op (RemoveBlam ch u) db).

(** [/blam list] (lines 163-175). *)
Definition list_cmd (channel_id : string) : M unit :=
  blammed <- list_blammed channel_id ;;
  match blammed with
  | [] => respond "No one is blammed in this channel."
  | _ => respond ("Blammed users: " ++ String.concat ", " (map mention blammed))
  end.

(** [/blam [add|remove] @user] and [/blam @user] (lines 387-418). *)
Definition blam_cmd (channel_id first : string) (tokens : list string) : M unit :=
  let is_action := String.eqb first "add" || String.eqb first "remove" in
  let action := if is_action then first else "add" in
  let mention_token_idx := if is_action then 1 else 0 in
  match nth_error tokens mention_token_idx with
  | None => respond "Please mention a user, e.g., /blam @user"
  | Some tok =>
      match _parse_mention tok with
      | None => respond "Please mention a user, e.g., /blam @user"
      | Some target_user =>
          if String.eqb action "remove" then
            try_except
              (store (RemoveBlam channel_id target_user) ;;
               respond ("Unblammed " ++ mention target_user ++ " in this channel."))
              (fun _ => emit (EvLog "Failed to remove blam") ;; respond "Error removing blam.")
          else
            try_except
              (store (AddBlam channel_id target_user) ;;
               _kick_if_possible channel_id target_user ;;
               respond ("Blammed " ++ mention target_user ++ " in this channel."))
              (fun _ => emit (EvLog "Failed to blam") ;; respond "Error blamming.")
      end
  end.

(** [conversations_join] for public channels (lines 147-155).  [false]
    means the handler returns; the [respond("Error joining channel.")] there
    is not awaited, so no message is sent. *)
Definition join_if_public (channel_id : string) : M bool :=
  if String.prefix "C" channel_id then
    w <- ask ;;
    emit (EvJoin channel_id) ;;
    match conversations_join w channel_id with
    | None => ret true
    | Some (SlackApiError err) =>
        if String.eqb err "method_not_supported_for_channel_type" then ret true
        else emit (EvLog "Failed to join channel") ;; ret false
    | Some e => raise e
    end
  else ret true.

Definition dispatch (channel_id : string) (tokens : list string) (first : string) : M unit :=
  if String.eqb first "help" || String.eqb first "usage" then respond HELP_TEXT
  else if String.eqb first "list" then list_cmd channel_id
  else if String.eqb first "idv" then idv_cmd channel_id tokens
  else if String.eqb first "whitelist" then whitelist_cmd channel_id tokens
  else blam_cmd channel_id first tokens.

Definition handle_blam (command : command) : M unit :=
  let channel_id := cmd_channel_id command in
  let actor_id := cmd_user_id command in
  w <- ask ;;
  found <- member_scan (fuel w) channel_id actor_id None ;;
  if negb (String.eqb actor_id (ADMIN_ID w)) && negb found then
    respond "You are not authorized to use this command."
  else
  let tokens := split_ws (cmd_text command) in
  if String.eqb channel_id "" then respond "Cannot determine channel." else
  match tokens with
  | [] => respond HELP_TEXT
  | t0 :: _ =>
      joined <- join_if_public channel_id ;;
      if negb joined then ret tt else
      dispatch channel_id tokens (lower t0)
  end.

(** ** Membership events *)

Record join_event := mkJoinEvent {
  je_user : string;
  je_channel : string;
  je_authorized_user : string   (** [body["authorizations"][0]["user_id"]] *)
}.

(** The self check of lines 427-434: when the joining user is the
    installing user itself, invite the operator. *)
Definition invite_admin_on_self_join (ev : join_event) : M unit :=
  w <- ask ;;
  if String.eqb (je_user ev) (je_authorized_user ev) then
    emit (EvInvite (je_channel ev) (ADMIN_ID w)) ;;
    try_slack
      (match conversations_invite w (je_channel ev) (ADMIN_ID w) with
       | None => ret tt
       | Some e => raise e
       end)
      (fun _ => emit (EvLog "Failed to invite admin to channel"))
  else ret tt.

(** The enforcement of lines 438-468. *)
Definition enforce_on_join (channel_id user_id : string) : M unit :=
  w <- ask ;;
  whitelisted <- list_whitelisted channel_id ;;
  if mem user_id whitelisted then ret tt else
  blam_ok <- (if String.eqb user_id (ADMIN_ID w) then ret true
              else blammed <- list_blammed channel_id ;; ret (negb (mem user_id blammed))) ;;
  level <- (if blam_ok then get_idv_required_level channel_id else ret 0) ;;
  let finish (idv_ok : bool) : M unit :=
    if blam_ok && idv_ok then ret tt
    else
      try_except
        (_kick_if_possible channel_id user_id ;;
         emit (EvLog "Kicked blammed user on join"))
        (fun _ => emit (EvLog "Failed to kick blammed user")) in
  if blam_ok && Nat.ltb 0 level then
    is_bot <- user_is_bot user_id ;;
    if is_bot then emit (EvLog "skipping kick for bot") else
    idv_ok <- (if Nat.eqb level 1 then is_idved user_id
               else if Nat.eqb level 2 then is_idved_under18 user_id
               else ret true) ;;
    finish idv_ok
  else finish true.

(** [handle_member_joined_channel] (lines 421-468). *)
Definition handle_member_joined_channel (ev : join_event) : M unit :=
  invite_admin_on_self_join ev ;;
  enforce_on_join (je_channel ev) (je_user ev).

Record left_event := mkLeftEvent {
  le_channel : string;
  le_user : string;
  le_actor : string   (** [""] when [actor_id] is absent *)
}.

(** [handle_member_left_channel] (lines 540-557). *)
Definition handle_member_left_channel (ev : left_event) : M unit :=
  let channel_id := le_channel ev in
  let user_id := le_user ev in
  if String.eqb channel_id "" || String.eqb user_id "" then ret tt else
  is_manager <- _is_channel_manager channel_id (le_actor ev) ;;
  if is_manager then ret tt else
  w <- ask ;;
  if negb (String.eqb (BOT_USER_ID w) "") && String.eqb user_id (BOT_USER_ID w) then
    _invite_bot channel_id
  else if String.eqb user_id (ADMIN_ID w) then
    _invite_user channel_id (ADMIN_ID w)
  else ret tt.

(** ** [utils._fetch_channel_members]

    The edge-API listing: each page has a [results] list (entries with an
    optional [id]) and a [next_marker] ([""] when absent). *)
Inductive edge_resp :=
| EdgeError (error : string)
| EdgeData (results : list (option string)) (next_marker : string).

Fixpoint fetch_members_loop (n : nat) (api : option string -> edge_resp)
    (marker : option string) (members : list string) : res (list string) :=
  match n with
  | 0 => Diverge
  | S n' =>
      match api marker with
      | EdgeError e => Raise (OtherError ("edge users.list failed: " ++ e))
      | EdgeData results next_marker =>
          let members' := members ++ flat_map (fun r => match r with
                                           | Some u => if String.eqb u "" then [] else [u]
                                           | None => []
                                           end) results in
          if String.eqb next_marker "" || (match results with [] => true | _ => false end)
          then Ok members'
          else fetch_members_loop n' api (Some next_marker) members'
      end
  end.

Definition _fetch_channel_members (n : nat) (api : option string -> edge_resp) : res (list string) :=
  fetch_members_loop n api None [].

(** ** A sample world for evaluation *)

Definition empty_db : database := mkDb [] [] [].

Definition run {A} (m : M A) (w : world) (db : database) : res A * state :=
  m w (mkState db []).

Definition added (s : state) (s' : state) (t : list event) : Prop :=
  st_trace s' = st_trace s ++ t.

(** ** Sample worlds for evaluation

    [w0]: channel [C1] has the members [UADMIN], [U1], [U2] and the bot
    [UBOT] on one page; [U1] is verified, [U2] is not; every call succeeds. *)

Definition w0 : world :=
  mkWorld "UADMIN" "UBOT"
    (fun _ _ => MembersPage ["UADMIN"; "U1"; "U2"; "UBOT"] "")
    (fun _ => None)
    (fun u => Some (String.eqb u "UBOT"))
    (fun _ => None)
    (fun u => if String.eqb u "U1" then IdvResponse 200 (BodyJson (Some "verified_eligible"))
              else IdvResponse 200 (BodyJson (Some "pending")))
    (fun _ _ => XoxcJson true "")
    (fun _ _ => None)
    (fun _ _ => None)
    10
    true.

(** [w_idv_bad]: the identity endpoint answers [503] with a verified body
    for [U503], fails in transport for [UDOWN], and answers [500] with a
    body that is not JSON for everyone else; nobody but [UBOT] is a bot. *)
Definition w_idv_bad : world :=
  mkWorld "UADMIN" "UBOT"
    (fun _ _ => MembersPage ["UADMIN"; "U503"; "UDOWN"; "UBAD"; "UBOT"] "")
    (fun _ => None)
    (fun u => Some (String.eqb u "UBOT"))
    (fun _ => None)
    (fun u => if String.eqb u "U503" then IdvResponse 503 (BodyJson (Some "verified_eligible"))
              else if String.eqb u "UDOWN" then IdvTransportError
              else IdvResponse 500 BodyMalformed)
    (fun _ _ => XoxcJson true "")
    (fun _ _ => None)
    (fun _ _ => None)
    10
    true.

(** [w_empty_pages]: every page of [conversations_members] is empty and
    carries the continuation cursor [next]. *)
Definition w_empty_pages : world :=
  mkWorld "UADMIN" "UBOT"
    (fun _ _ => MembersPage [] "next")
    (fun _ => None)
    (fun u => Some (String.eqb u "UBOT"))
    (fun _ => None)
    (fun _ => IdvResponse 200 (BodyJson (Some "verified_eligible")))
    (fun _ _ => XoxcJson true "")
    (fun _ _ => None)
    (fun _ _ => None)
    50
    true.

(** [w_kick_fail]: the cookie-session kick answers [ok: false] for [U22] and
    raises a transport error for everyone else; the personal-token kick
    raises a transport error too. *)
Definition w_kick_fail : world :=
  mkWorld "UADMIN" "UBOT"
    (fun _ _ => MembersPage ["UADMIN"; "U11"; "U22"; "UBOT"] "")
    (fun _ => None)
    (fun u => Some (String.eqb u "UBOT"))
    (fun _ => None)
    (fun _ => IdvResponse 200 (BodyJson (Some "verified_eligible")))
    (fun _ u => if String.eqb u "U22" then XoxcJson false "restricted_action"
                else XoxcRaise (OtherError "aiohttp.ClientError"))
    (fun _ _ => Some (OtherError "aiohttp.ClientError"))
    (fun _ _ => None)
    10
    true.

(** ** [utils._is_channel_manager]

    The role-based check of [utils.py]: the actor is a manager when it is
    one of the users of the channel's first role assignment, as
    [_list_channel_managers] returns them ([[]] when the lookup fails). *)
Module Utils.

Definition _is_channel_manager (managers : list string) (user_id : string) : bool :=
  mem user_id managers.

(** The posting-permission helpers of [utils.py] (lines 138-254).  The
    [channels.prefs.get] reply is [PrefsGetError error] when [ok] is false
    ([error] is ["??"] when the reply has none) and otherwise carries the
    [user] list of [pref_value]; the [channels.prefs.set] reply is [None]
    when [ok] is true.  Each result comes with the [who_can_post] values
    sent to [channels.prefs.set] ([can_thread] always gets the same one). *)
Inductive prefs_get_resp :=
| PrefsGetError (error : string)
| PrefsGetOk (users : list string).

Record prefs_api := mkPrefsApi {
  prefs_get : string -> prefs_get_resp;
  prefs_set : string -> string -> option string;
  edge_users_list : option string -> edge_resp;
  edge_fuel : nat
}.

Definition prefs_value (users : list string) : string :=
  "type:admin,user:" ++ String.concat ",user:" users.

(** One [channels.prefs.set] request; [fail_msg] is the prefix of the
    [RuntimeError] raised when the reply is not [ok]. *)
Definition prefs_set_call (api : prefs_api) (channel_id value fail_msg : string)
    : res unit * list string :=
  (match prefs_set api channel_id value with
   | None => Ok tt
   | Some err => Raise (OtherError (fail_msg ++ err))
   end, [value]).

(** [_allow_channel_post(channel_id, add_user_ids, bypass=True)]: read the
    current list, then set it with the new ids appended. *)
Definition _allow_channel_post_bypass (api : prefs_api) (channel_id : string)
    (add_user_ids : list string) : res unit * list string :=
  match prefs_get api channel_id with
  | PrefsGetError err => (Raise (OtherError ("channels.prefs.get failed: " ++ err)), [])
  | PrefsGetOk users =>
      prefs_set_call api channel_id (prefs_value (users ++ add_user_ids))
        "channels.prefs.set failed: "
  end.

(** [_initialize_channel_post] (lines 247-254). *)
Definition _initialize_channel_post (api : prefs_api) (channel_id : string)
    : res unit * list string :=
  match _fetch_channel_members (edge_fuel api) (edge_users_list api) with
  | Ok [] => (Raise (OtherError "edge users.list returned no members"), [])
  | Ok users => _allow_channel_post_bypass api channel_id users
  | Raise e => (Raise e, [])
  | Diverge => (Diverge, [])
  end.

(** [_allow_channel_post] (lines 138-188): an empty current list without
    [bypass] initializes the list from the channel members instead. *)
Definition _allow_channel_post (api : prefs_api) (channel_id : string)
    (add_user_ids : list string) (bypass : bool) : res unit * list string :=
  match prefs_get api channel_id with
  | PrefsGetError err => (Raise (OtherError ("channels.prefs.get failed: " ++ err)), [])
  | PrefsGetOk users =>
      if (match users with [] => true | _ => false end) && negb bypass then
        _initialize_channel_post api channel_id
      else
        prefs_set_call api channel_id (prefs_value (users ++ add_user_ids))
          "channels.prefs.set failed: "
  end.

(** [_prevent_channel_post] (lines 191-244).  A failed set raises with the
    message of the get, as the source has it. *)
Definition _prevent_channel_post (api : prefs_api) (channel_id : string)
    (remove_user_ids : list string) : res unit * list string :=
  match prefs_get api channel_id with
  | PrefsGetError err => (Raise (OtherError ("channels.prefs.get failed: " ++ err)), [])
  | PrefsGetOk users =>
      let kept := filter (fun u => negb (mem u remove_user_ids)) users in
      if Nat.eqb (length kept) (length users) then (Ok tt, [])
      else
        prefs_set_call api channel_id
          (match kept with [] => "type:admin" | _ => prefs_value kept end)
          "channels.prefs.get failed: "
  end.

End Utils.

(** * Effect discipline

    [only P m]: whatever the world and the state, [m] appends to the trace
    a list of events that all satisfy [P], and the store it leaves is the
    store it started from with the store events of that list replayed. *)

Definition replay (t : list event) (db : database) : database :=
  fold_left (fun db e => match e with EvStore op => exec_op op db | _ => db end) t db.

Definition only (P : event -> Prop) {A} (m : M A) : Prop :=
  forall w s, exists t,
    snd (m w s) = mkState (replay t (st_db s)) (st_trace s ++ t) /\ Forall P t.

(** Effects that change the store or the channel membership of others. *)
Definition mutation (e : event) : Prop :=
  match e with
  | EvKick _ _ | EvKickAttempt _ _ _ | EvStore _ | EvInvite _ _ => True
  | _ => False
  end.

Definition is_kick (e : event) : Prop :=
  match e with EvKick _ _ => True | _ => False end.

Definition is_store (e : event) : Prop :=
  match e with EvStore _ => True | _ => False end.

Definition is_lookup (e : event) : Prop :=
  match e with EvBotLookup _ | EvIdvLookup _ => True | _ => False end.

(** [ro_spec m Q]: [m] leaves the store alone and any value [a] it returns
    satisfies [Q w db a] for the world and the store it ran in. *)
Definition ro_spec {A} (m : M A) (Q : world -> database -> A -> Prop) : Prop :=
  forall w s, st_db (snd (m w s)) = st_db s /\
              (forall a, fst (m w s) = Ok a -> Q w (st_db s) a).

Definition ns_ev (e : event) : Prop := ~ is_store e.

(** The kicks of a trace go to [ch], never to the operator, never to a
    member whitelisted in [db]. *)
Definition kick_ok (ch : string) (w : world) (db : database) (e : event) : Prop :=
  match e with
  | EvKick c u => c = ch /\ u <> ADMIN_ID w /\ mem u (list_whitelisted_db ch db) = false
  | _ => True
  end.

Definition kick_in (ch : string) (l : list string) (e : event) : Prop :=
  match e with
  | EvKick c u => c = ch /\ In u l
  | EvStore _ => False
  | _ => True
  end.

(** Neither a lookup, nor a kick, nor a store write. *)
Definition quiet_ev (e : event) : Prop :=
  match e with
  | EvBotLookup _ | EvIdvLookup _ | EvKick _ _ | EvStore _ => False
  | _ => True
  end.

Section OnlyLemmas.

Variable P : event -> Prop.

Lemma replay_app : forall t1 t2 db, replay (t1 ++ t2) db = replay t2 (replay t1 db).
Proof. intros. unfold replay. apply fold_left_app. Qed.

Lemma replay_no_store : forall t db, Forall (fun e => ~ is_store e) t -> replay t db = db.
Proof.
  induction t as [|e t IH]; intros db H; [reflexivity|].
  inversion H as [|? ? He Ht]; subst. simpl.
  destruct e; try (apply IH; assumption).
  exfalso; apply He; exact I.
Qed.

Lemma only_ret {A} (a : A) : only P (ret a).
Proof. intros w [db tr]. exists []. rewrite app_nil_r. split; [reflexivity | constructor]. Qed.

Lemma only_raise {A} e : only P (@raise A e).
Proof. intros w [db tr]. exists []. rewrite app_nil_r. split; [reflexivity | constructor]. Qed.

Lemma only_diverge {A} : only P (@diverge A).
Proof. intros w [db tr]. exists []. rewrite app_nil_r. split; [reflexivity | constructor]. Qed.

Lemma only_ask : only P ask.
Proof. intros w [db tr]. exists []. rewrite app_nil_r. split; [reflexivity | constructor]. Qed.

Lemma only_get_db : only P get_db.
Proof. intros w [db tr]. exists []. rewrite app_nil_r. split; [reflexivity | constructor]. Qed.

Lemma only_emit e : ~ is_store e -> P e -> only P (emit e).
Proof.
  intros Hs He w [db tr]. exists [e]. split; [|constructor; auto].
  destruct e; try reflexivity. exfalso; apply Hs; exact I.
Qed.

Lemma only_store op : P (EvStore op) -> only P (store op).
Proof. intros He w [db tr]. exists [EvStore op]. split; [reflexivity | constructor; auto]. Qed.

Lemma only_bind {A B} (m : M A) (k : A -> M B) :
  only P m -> (forall a, only P (k a)) -> only P (bind m k).
Proof.
  intros Hm Hk w s. unfold bind.
  destruct (Hm w s) as [t1 [E1 F1]].
  destruct (m w s) as [r s1]. simpl in E1. subst s1.
  destruct r as [a|e|].
  - destruct (Hk a w (mkState (replay t1 (st_db s)) (st_trace s ++ t1))) as [t2 [E2 F2]].
    exists (t1 ++ t2). rewrite E2. simpl. rewrite replay_app, app_assoc.
    split; [reflexivity | apply Forall_app; auto].
  - exists t1. auto.
  - exists t1. auto.
Qed.

Lemma only_try_except {A} (m : M A) h :
  only P m -> (forall e, only P (h e)) -> only P (try_except m h).
Proof.
  intros Hm Hh w s. unfold try_except.
  destruct (Hm w s) as [t1 [E1 F1]].
  destruct (m w s) as [r s1]. simpl in E1. subst s1.
  destruct r as [a|e|]; try (exists t1; auto; fail).
  destruct (Hh e w (mkState (replay t1 (st_db s)) (st_trace s ++ t1))) as [t2 [E2 F2]].
  exists (t1 ++ t2). rewrite E2. simpl. rewrite replay_app, app_assoc.
  split; [reflexivity | apply Forall_app; auto].
Qed.

Lemma only_try_slack {A} (m : M A) h :
  only P m -> (forall err, only P (h err)) -> only P (try_slack m h).
Proof.
  intros Hm Hh w s. unfold try_slack.
  destruct (Hm w s) as [t1 [E1 F1]].
  destruct (m w s) as [r s1]. simpl in E1. subst s1.
  destruct r as [a|[err|what]|]; try (exists t1; auto; fail).
  destruct (Hh err w (mkState (replay t1 (st_db s)) (st_trace s ++ t1))) as [t2 [E2 F2]].
  exists (t1 ++ t2). rewrite E2. simpl. rewrite replay_app, app_assoc.
  split; [reflexivity | apply Forall_app; auto].
Qed.

Lemma only_attempt {A} (m : M A) : only P m -> only P (attempt m).
Proof.
  intros Hm w s. unfold attempt.
  destruct (Hm w s) as [t1 [E1 F1]].
  destruct (m w s) as [r s1]. simpl in E1. subst s1.
  destruct r; exists t1; auto.
Qed.

Lemma only_run_all {A} (ms : list (M A)) : Forall (only P) ms -> only P (run_all ms).
Proof.
  induction 1; simpl.
  - apply only_ret.
  - apply only_bind; [apply only_attempt; assumption|intro].
    apply only_bind; [assumption|intro]. apply only_ret.
Qed.

Lemma only_lift_res {A} (r : res A) : only P (lift_res r).
Proof. destruct r; simpl; [apply only_ret | apply only_raise | apply only_diverge]. Qed.

Lemma only_gather {A} (ms : list (M A)) : Forall (only P) ms -> only P (gather ms).
Proof.
  intro H. unfold gather. apply only_bind; [apply only_run_all; assumption|intro].
  apply only_lift_res.
Qed.

Lemma only_for_each {A} (f : A -> M unit) l :
  (forall x, only P (f x)) -> only P (for_each f l).
Proof.
  intro Hf. induction l as [|x l IH]; simpl; [apply only_ret|].
  apply only_bind; [apply Hf | intro; exact IH].
Qed.

End OnlyLemmas.

(** Discharges [P e] for one event: by computation, or through a hypothesis
    [forall e, Q e -> P e] of the context. *)
Ltac solve_ev :=
  first
    [ simpl; tauto
    | match goal with
      | H : forall e, _ -> ?P e |- ?P _ => apply H; simpl; tauto
      end ].

(** Walks through a monadic program, one combinator at a time. *)
Ltac only_step :=
  match goal with
  | |- only _ (bind _ _) => apply only_bind; [| intro]
  | |- only _ (ret _) => apply only_ret
  | |- only _ (raise _) => apply only_raise
  | |- only _ diverge => apply only_diverge
  | |- only _ ask => apply only_ask
  | |- only _ get_db => apply only_get_db
  | |- only _ (try_except _ _) => apply only_try_except; [| intro]
  | |- only _ (try_slack _ _) => apply only_try_slack; [| intro]
  | |- only _ (lift_res _) => apply only_lift_res
  | |- only _ (emit _) => apply only_emit; [simpl; tauto | solve_ev]
  | |- only _ (respond _) => apply only_emit; [simpl; tauto | solve_ev]
  | |- only _ (store _) => apply only_store; solve_ev
  | |- only _ (list_blammed _) => unfold list_blammed
  | |- only _ (list_whitelisted _) => unfold list_whitelisted
  | |- only _ (get_idv_required_level _) => unfold get_idv_required_level
  | |- only _ (match ?x with _ => _ end) => destruct x
  end.

Ltac only_auto := repeat only_step.

(** ** The read-only parts *)

Section ReadOnly.

Variable P : event -> Prop.
Hypothesis HP : forall e, ~ mutation e -> P e.

Lemma ro_idvstatus u : only P (idvstatus u).
Proof. unfold idvstatus. only_auto. Qed.

Lemma ro_is_idved u : only P (is_idved u).
Proof. unfold is_idved. apply only_bind; [apply ro_idvstatus | intro; apply only_ret]. Qed.

Lemma ro_is_idved_under18 u : only P (is_idved_under18 u).
Proof. unfold is_idved_under18. apply only_bind; [apply ro_idvstatus | intro; apply only_ret]. Qed.

Lemma ro_user_is_bot u : only P (user_is_bot u).
Proof. unfold user_is_bot. only_auto. Qed.

Lemma ro_member_scan n ch u cur : only P (member_scan n ch u cur).
Proof.
  revert cur. induction n as [|n IH]; intro cur; simpl; only_auto.
  apply IH.
Qed.

Lemma ro_is_channel_manager ch u : only P (_is_channel_manager ch u).
Proof. unfold _is_channel_manager. only_auto. apply ro_member_scan. Qed.

Lemma ro_collect_members n ch cur users : only P (collect_members n ch cur users).
Proof.
  revert cur users. induction n as [|n IH]; intros cur users; simpl; only_auto.
  apply IH.
Qed.

Lemma ro_list_members ch : only P (list_members ch).
Proof. unfold list_members. only_auto. apply ro_collect_members. Qed.

Lemma ro_needs_kick lvl wl u : only P (needs_kick lvl wl u).
Proof.
  unfold needs_kick. only_auto;
    first [apply ro_user_is_bot | apply ro_is_idved | apply ro_is_idved_under18].
Qed.

Lemma ro_idv_test ch tokens : only P (idv_test ch tokens).
Proof.
  unfold idv_test. only_auto; try apply ro_list_members.
  apply only_gather. apply Forall_forall. intros m Hm.
  apply in_map_iff in Hm. destruct Hm as [u [<- _]]. apply ro_needs_kick.
Qed.

Lemma ro_join_if_public ch : only P (join_if_public ch).
Proof. unfold join_if_public. only_auto. Qed.

End ReadOnly.

Lemma only_run_trace P {A} (m : M A) w db :
  only P m -> exists t, snd (run m w db) = mkState (replay t db) t /\ Forall P t.
Proof. intros H. destruct (H w (mkState db [])) as [t [E F]]. exists t. auto. Qed.

Lemma handle_blam_idv_test_ro cmd t0 t1 rest :
  split_ws (cmd_text cmd) = t0 :: t1 :: rest -> lower t0 = "idv" -> lower t1 = "test" ->
  only (fun e => ~ mutation e) (handle_blam cmd).
Proof.
  intros Htok H0 H1. unfold handle_blam. cbv zeta. rewrite Htok.
  apply only_bind; [apply only_ask | intro w].
  apply only_bind; [apply ro_member_scan; tauto | intro found].
  only_step; [only_step|].
  only_step; [only_step|].
  apply only_bind; [apply ro_join_if_public; tauto | intro joined].
  only_step; [only_step|].
  unfold dispatch. rewrite H0. simpl. unfold idv_cmd. rewrite H1. simpl.
  apply ro_idv_test; tauto.
Qed.

Lemma bind_assoc_run {A B C} (m : M A) (k1 : A -> M B) (k2 : B -> M C) w s :
  bind (bind m k1) k2 w s = bind m (fun a => bind (k1 a) k2) w s.
Proof. unfold bind. destruct (m w s) as [[a|e|] s']; reflexivity. Qed.

Lemma bind_ask_run {B} (k : world -> M B) w s : bind ask k w s = k w w s.
Proof. reflexivity. Qed.

Lemma bind_emit_run {B} e (k : unit -> M B) w s :
  bind (emit e) k w s = k tt w (mkState (st_db s) (st_trace s ++ [e])).
Proof. reflexivity. Qed.

Lemma only_run P {A} (m : M A) w s :
  only P m -> exists t, snd (m w s) = mkState (replay t (st_db s)) (st_trace s ++ t) /\ Forall P t.
Proof. intro H. apply H. Qed.

Lemma ns_kick_if_possible ch u : only (fun e => ~ is_store e) (_kick_if_possible ch u).
Proof. unfold _kick_if_possible, _kick_xoxc. only_auto. Qed.

Lemma ns_of_ro e : ~ mutation e -> ~ is_store e.
Proof. destruct e; simpl; tauto. Qed.

Lemma ns_sweep_select lvl ch users : only (fun e => ~ is_store e) (sweep_select lvl ch users).
Proof.
  induction users as [|u users IH]; simpl; only_auto;
    first [ exact IH
          | apply ro_user_is_bot | apply ro_is_idved | apply ro_is_idved_under18 ];
    exact ns_of_ro.
Qed.

Lemma ns_sweep_tail ch n (K : list string -> M unit) :
  (forall users, only (fun e => ~ is_store e) (K users)) ->
  forall r, only (fun e => ~ is_store e)
    (bind (match r with
           | MembersFail err => raise (SlackApiError err)
           | MembersPage members next_cursor =>
               if String.eqb next_cursor "" then ret ([] ++ members)
               else collect_members n ch (Some next_cursor) ([] ++ members)
           end) K).
Proof.
  intros HK r. apply only_bind; [|exact HK].
  only_auto. apply ro_collect_members, ns_of_ro.
Qed.

Lemma sweep_starts_listing ch n w s :
  0 < fuel w ->
  exists t, snd (sweep ch n w s) = mkState (st_db s) (st_trace s ++ EvListMembers ch :: t)
            /\ Forall (fun e => ~ is_store e) t.
Proof.
  intros Hf. unfold sweep, list_members.
  rewrite bind_assoc_run, bind_ask_run.
  destruct (fuel w) as [|k] eqn:Ef; [lia|].
  cbn [collect_members].
  rewrite bind_assoc_run, bind_ask_run, bind_assoc_run, bind_emit_run.
  match goal with
  | |- exists t, snd (?m ?w' ?s') = _ /\ _ =>
      assert (Hm : only (fun e => ~ is_store e) m); [|destruct (Hm w' s') as [t [E F]]]
  end.
  - apply ns_sweep_tail. intro users.
    apply only_bind; [apply ns_sweep_select | intro toblam].
    apply only_bind; [| intro; only_auto].
    apply only_gather. apply Forall_forall. intros m Hm.
    apply in_map_iff in Hm. destruct Hm as [u [<- _]]. apply ns_kick_if_possible.
  - exists t. rewrite E. simpl. rewrite <- app_assoc. simpl.
    rewrite replay_no_store by exact F. split; [reflexivity | exact F].
Qed.

Lemma bind_get_db_run {B} (k : database -> M B) w s : bind get_db k w s = k (st_db s) w s.
Proof. reflexivity. Qed.

Lemma bind_ret_run {A B} (a : A) (k : A -> M B) w s : bind (ret a) k w s = k a w s.
Proof. reflexivity. Qed.

Lemma bind_ok_run {A B} (m : M A) (k : A -> M B) w s a s1 :
  m w s = (Ok a, s1) -> bind m k w s = k a w s1.
Proof. intro E. unfold bind. rewrite E. reflexivity. Qed.

Lemma try_except_ok_run {A} (m : M A) h w s a s1 :
  m w s = (Ok a, s1) -> try_except m h w s = (Ok a, s1).
Proof. intro E. unfold try_except. rewrite E. reflexivity. Qed.

Lemma store_respond_run op msg w s :
  (store op ;; respond msg) w s =
  (Ok tt, mkState (exec_op op (st_db s)) (st_trace s ++ [EvStore op; EvRespond msg])).
Proof. destruct s. unfold bind, store, respond, emit. simpl. rewrite <- app_assoc. reflexivity. Qed.

Lemma live_sweep_starts_listing ch n w s h :
  0 < fuel w ->
  exists t, snd (try_except (sweep ch n) (fun _ => emit (EvLog h)) w s)
            = mkState (st_db s) (st_trace s ++ EvListMembers ch :: t)
            /\ Forall (fun e => ~ is_store e) t.
Proof.
  intro Hf. destruct (sweep_starts_listing ch n w s Hf) as [t [E F]].
  unfold try_except. destruct (sweep ch n w s) as [r s2]. simpl in E. subst s2.
  destruct r as [a|e|].
  - exists t. auto.
  - exists (t ++ [EvLog h]). simpl. rewrite <- app_assoc. split; [reflexivity|].
    apply Forall_app. split; [exact F | constructor; [simpl; tauto | constructor]].
  - exists t. auto.
Qed.

(** ** The policy-set command *)

(** The runs of [/blam idv <level>] for a valid level: "already set" only
    answers; any other change writes the level and answers; what follows the
    answer is the live sweep exactly when the level goes from 0 to nonzero,
    and nothing otherwise. *)
Lemma idv_set_runs ch level w s :
  valid_level level = true ->
  let old := get_idv_required_level_db ch (st_db s) in
  let new := levelnum_of level in
  let set_msg := ("Set IDV requirement to " ++ level ++ " for this channel.")%string in
  (old = new ->
     idv_set ch level w s =
     (Ok tt, mkState (st_db s) (st_trace s ++
        [EvRespond ("IDV requirement is already set to " ++ level ++ " for this channel.")]))) /\
  (old <> new -> ~ (old = 0 /\ 0 < new) ->
     idv_set ch level w s =
     (Ok tt, mkState (exec_op (SetIdvLevel ch new) (st_db s))
               (st_trace s ++ [EvStore (SetIdvLevel ch new); EvRespond set_msg]))) /\
  (old = 0 -> 0 < new -> 0 < fuel w ->
     exists t, snd (idv_set ch level w s) =
       mkState (exec_op (SetIdvLevel ch new) (st_db s))
         (st_trace s ++ [EvStore (SetIdvLevel ch new); EvRespond set_msg; EvListMembers ch] ++ t)
     /\ Forall (fun e => ~ is_store e) t) /\
  (old = 0 -> 0 < new ->
     idv_set ch level w s =
     try_except (sweep ch new) (fun _ => emit (EvLog "Failed to kick blammed users on IDV change")) w
       (mkState (exec_op (SetIdvLevel ch new) (st_db s))
          (st_trace s ++ [EvStore (SetIdvLevel ch new); EvRespond set_msg]))).
Proof.
  intros Hv old new set_msg.
  assert (Hrun : idv_set ch level w s =
    (if Nat.eqb old new
     then respond ("IDV requirement is already set to " ++ level ++ " for this channel.") w s
     else bind (try_except (store (SetIdvLevel ch new) ;; respond set_msg)
                  (fun _ => emit (EvLog "Failed to set IDV requirement") ;;
                            respond "Error setting IDV requirement."))
               (fun _ => if Nat.eqb old 0 && Nat.ltb 0 new then
                           try_except (sweep ch new)
                             (fun _ => emit (EvLog "Failed to kick blammed users on IDV change"))
                         else ret tt) w s)).
  { unfold idv_set. rewrite Hv. unfold negb. cbv iota zeta beta.
    unfold get_idv_required_level. rewrite bind_assoc_run, bind_get_db_run, bind_ret_run.
    unfold old, new, set_msg.
    destruct (Nat.eqb (get_idv_required_level_db ch (st_db s)) (levelnum_of level)); reflexivity. }
  rewrite Hrun.
  assert (Hset : forall K : unit -> M unit,
    bind (try_except (store (SetIdvLevel ch new) ;; respond set_msg)
            (fun _ => emit (EvLog "Failed to set IDV requirement") ;;
                      respond "Error setting IDV requirement.")) K w s
    = K tt w (mkState (exec_op (SetIdvLevel ch new) (st_db s))
                (st_trace s ++ [EvStore (SetIdvLevel ch new); EvRespond set_msg]))).
  { intro K. apply bind_ok_run. apply try_except_ok_run. apply store_respond_run. }
  split; [|split; [|split]].
  - intro Heq. rewrite Heq, Nat.eqb_refl. destruct s. reflexivity.
  - intros Hne Hnot. apply Nat.eqb_neq in Hne. rewrite Hne, Hset.
    destruct (Nat.eqb old 0 && Nat.ltb 0 new) eqn:Hc; [|reflexivity].
    exfalso. apply Hnot. apply andb_true_iff in Hc. destruct Hc as [H1 H2].
    apply Nat.eqb_eq in H1. apply Nat.ltb_lt in H2. auto.
  - intros H0 Hpos Hf.
    assert (Hne : Nat.eqb old new = false) by (apply Nat.eqb_neq; lia).
    rewrite Hne, Hset, H0. apply Nat.ltb_lt in Hpos. rewrite Hpos.
    change (Nat.eqb 0 0 && true) with true. cbv iota.
    destruct (live_sweep_starts_listing ch new w
                (mkState (exec_op (SetIdvLevel ch new) (st_db s))
                   (st_trace s ++ [EvStore (SetIdvLevel ch new); EvRespond set_msg]))
                "Failed to kick blammed users on IDV change" Hf) as [t [E F]].
    exists t. rewrite E. simpl. rewrite <- app_assoc. split; [reflexivity | exact F].
  - intros H0 Hpos.
    assert (Hne : Nat.eqb old new = false) by (apply Nat.eqb_neq; lia).
    rewrite Hne, Hset, H0. apply Nat.ltb_lt in Hpos. rewrite Hpos. reflexivity.
Qed.

(** The scenario of the spec: going from 0 to [required] in a channel
    whose members are the operator, a verified member, an unverified member
    and the bot kicks exactly the unverified member. *)
Example idv_set_scenario :
  filter (fun e => match e with EvKick _ _ => true | _ => false end)
    (st_trace (snd (idv_set "C1" "required" w0 (mkState empty_db []))))
  = [EvKick "C1" "U2"].
Proof. reflexivity. Qed.

(** ** C5: the dry run *)

(** C5. The dry-run command [/blam idv test [level]], for every channel,
    membership, store and tested level, leaves the store as it was and issues
    no kick, no store write and no invite: its trace has only lookups,
    member listings, the channel join, logs and responses. *)
Theorem idv_test_no_mutation cmd w db t0 t1 rest :
  split_ws (cmd_text cmd) = t0 :: t1 :: rest -> lower t0 = "idv" -> lower t1 = "test" ->
  st_db (snd (run (handle_blam cmd) w db)) = db /\
  Forall (fun e => ~ mutation e) (st_trace (snd (run (handle_blam cmd) w db))).
Proof.
  intros Htok H0 H1.
  destruct (only_run_trace _ _ w db (handle_blam_idv_test_ro cmd t0 t1 rest Htok H0 H1))
    as [t [E F]].
  rewrite E. simpl. split; [|exact F].
  apply replay_no_store. eapply Forall_impl; [|exact F]. intros e He. apply ns_of_ro, He.
Qed.

Lemma idv_test_no_mutation_witness :
  split_ws (cmd_text (mkCommand "C1" "U1" "idv test under18")) = ["idv"; "test"; "under18"] /\
  lower "idv" = "idv" /\ lower "test" = "test" /\
  st_db (snd (run (handle_blam (mkCommand "C1" "U1" "idv test under18")) w0 empty_db)) = empty_db /\
  Forall (fun e => ~ mutation e)
    (st_trace (snd (run (handle_blam (mkCommand "C1" "U1" "idv test under18")) w0 empty_db))).
Proof.
  split; [reflexivity|]. split; [reflexivity|]. split; [reflexivity|].
  apply (idv_test_no_mutation (mkCommand "C1" "U1" "idv test under18") w0 empty_db
           "idv" "test" ["under18"]); reflexivity.
Defined.

(** The dry run of the sample world answers with the count only. *)
Example idv_test_sample :
  filter (fun e => match e with EvRespond _ => true | _ => false end)
    (st_trace (snd (run (handle_blam (mkCommand "C1" "U1" "idv test")) w0 empty_db)))
  = [EvRespond "1 users would be kicked if IDV requirement were set to required."].
Proof. reflexivity. Qed.

(** ** Results of read-only computations *)

Lemma ro_spec_bind {A B} (m : M A) (k : A -> M B) Q1 Q :
  ro_spec m Q1 ->
  (forall a, ro_spec (k a) (fun w db b => Q1 w db a -> Q w db b)) ->
  ro_spec (bind m k) Q.
Proof.
  intros Hm Hk w s. unfold bind.
  destruct (Hm w s) as [D1 R1].
  destruct (m w s) as [[a|e|] s1]; simpl in *; try (split; [exact D1 | discriminate]).
  destruct (Hk a w s1) as [D2 R2]. split.
  - rewrite D2. exact D1.
  - intros b Hb. rewrite <- D1. apply R2; [exact Hb|]. rewrite D1. apply R1. reflexivity.
Qed.

Lemma ro_spec_ret {A} (a : A) (Q : world -> database -> A -> Prop) :
  (forall w db, Q w db a) -> ro_spec (ret a) Q.
Proof. intros H w s. split; [reflexivity|]. intros b Hb. inversion Hb; subst. apply H. Qed.

Lemma ro_spec_of_only {A} (m : M A) :
  only (fun e => ~ is_store e) m -> ro_spec m (fun _ _ _ => True).
Proof.
  intros H w s. destruct (H w s) as [t [E F]]. rewrite E. simpl.
  rewrite replay_no_store by exact F. split; auto.
Qed.

Lemma ro_spec_list_whitelisted ch :
  ro_spec (list_whitelisted ch) (fun _ db l => l = list_whitelisted_db ch db).
Proof. intros w s. split; [reflexivity|]. intros a Ha. inversion Ha. reflexivity. Qed.

Lemma ro_spec_ask : ro_spec ask (fun w _ w' => w' = w).
Proof. intros w s. split; [reflexivity|]. intros a Ha. inversion Ha. reflexivity. Qed.

Lemma ro_spec_weaken {A} (m : M A) (Q Q' : world -> database -> A -> Prop) :
  ro_spec m Q -> (forall w db a, Q w db a -> Q' w db a) -> ro_spec m Q'.
Proof. intros H HQ w s. destruct (H w s) as [D R]. split; auto. Qed.

Lemma ns_user_is_bot u : only ns_ev (user_is_bot u).
Proof. apply ro_user_is_bot, ns_of_ro. Qed.

(** The sweep never selects the operator nor a whitelisted member. *)
Lemma sweep_select_spec lvl ch users :
  ro_spec (sweep_select lvl ch users)
    (fun w db l => forall u, In u l ->
       u <> ADMIN_ID w /\ mem u (list_whitelisted_db ch db) = false).
Proof.
  induction users as [|u users IH]; simpl.
  - apply ro_spec_ret. intros w db v Hv. destruct Hv.
  - apply ro_spec_bind with (Q1 := fun _ _ _ => True);
      [apply ro_spec_of_only, ns_user_is_bot | intro is_bot].
    destruct is_bot; [eapply ro_spec_weaken; [exact IH | auto]|].
    apply ro_spec_bind with (1 := ro_spec_list_whitelisted ch). intro wl.
    destruct (mem u wl) eqn:Hwl; [eapply ro_spec_weaken; [exact IH | auto]|].
    apply ro_spec_bind with (1 := ro_spec_ask). intro w'.
    destruct (String.eqb u (ADMIN_ID w')) eqn:Hadm; [eapply ro_spec_weaken; [exact IH | auto]|].
    apply ro_spec_bind with (Q1 := fun _ _ _ => True).
    { apply ro_spec_of_only. destruct (Nat.eqb lvl 1);
        [apply ro_is_idved, ns_of_ro | apply only_ret]. }
    intro ok1. destruct (negb ok1).
    + apply ro_spec_bind with (1 := IH). intro toblam.
      apply ro_spec_ret. intros w db Hrest _ Hw Hwl' _ v [<-|Hv].
      * subst. split; [apply String.eqb_neq; exact Hadm | exact Hwl].
      * apply Hrest, Hv.
    + apply ro_spec_bind with (Q1 := fun _ _ _ => True).
      { apply ro_spec_of_only. destruct (Nat.eqb lvl 2);
          [apply ro_is_idved_under18, ns_of_ro | apply only_ret]. }
      intro ok2. destruct (negb ok2).
      * apply ro_spec_bind with (1 := IH). intro toblam.
        apply ro_spec_ret. intros w db Hrest _ _ Hw Hwl' _ v [<-|Hv].
        -- subst. split; [apply String.eqb_neq; exact Hadm | exact Hwl].
        -- apply Hrest, Hv.
      * eapply ro_spec_weaken; [exact IH | auto].
Qed.

Lemma bind_run_cases {A B} (m : M A) (k : A -> M B) w s :
  bind m k w s =
  match m w s with
  | (Ok a, s') => k a w s'
  | (Raise e, s') => (Raise e, s')
  | (Diverge, s') => (Diverge, s')
  end.
Proof. reflexivity. Qed.

Lemma ro_sweep_select lvl ch users : only (fun e => ~ mutation e) (sweep_select lvl ch users).
Proof.
  induction users as [|u users IH]; simpl; only_auto;
    first [ exact IH
          | apply ro_user_is_bot | apply ro_is_idved | apply ro_is_idved_under18 ];
    tauto.
Qed.

Lemma gather_kicks_in ch l : only (kick_in ch l) (gather (map (_kick_if_possible ch) l)).
Proof.
  apply only_gather. apply Forall_forall. intros m Hm.
  apply in_map_iff in Hm. destruct Hm as [u [<- Hu]].
  unfold _kick_if_possible, _kick_xoxc. repeat only_step.
  all: try (apply only_emit; simpl; auto).
Qed.

Lemma sweep_kicks ch n w s :
  exists t, snd (sweep ch n w s) = mkState (st_db s) (st_trace s ++ t) /\
            Forall (kick_ok ch w (st_db s)) t.
Proof.
  unfold sweep. rewrite bind_run_cases.
  destruct (ro_list_members (fun e => ~ mutation e) (fun e H => H) ch w s) as [t1 [E1 F1]].
  rewrite replay_no_store in E1 by (eapply Forall_impl; [|exact F1]; intros e He; apply ns_of_ro, He).
  assert (K1 : Forall (kick_ok ch w (st_db s)) t1).
  { eapply Forall_impl; [|exact F1]. intros [] He; simpl in *; tauto. }
  destruct (list_members ch w s) as [[users|e|] s1]; simpl in E1; subst s1;
    [|exists t1; auto|exists t1; auto].
  rewrite bind_run_cases.
  destruct (sweep_select_spec n ch users w (mkState (st_db s) (st_trace s ++ t1))) as [D2 R2].
  destruct (ro_sweep_select n ch users w (mkState (st_db s) (st_trace s ++ t1))) as [t2 [E2 F2]].
  assert (K2 : Forall (kick_ok ch w (st_db s)) t2).
  { eapply Forall_impl; [|exact F2]. intros [] He; simpl in *; tauto. }
  destruct (sweep_select n ch users w (mkState (st_db s) (st_trace s ++ t1))) as [[toblam|e|] s2];
    simpl in D2, E2, R2; subst s2; simpl in D2;
    [| exists (t1 ++ t2); rewrite D2, <- app_assoc; split; [reflexivity | apply Forall_app; auto]
     | exists (t1 ++ t2); rewrite D2, <- app_assoc; split; [reflexivity | apply Forall_app; auto]].
  specialize (R2 toblam eq_refl). simpl in R2.
  rewrite D2. rewrite bind_run_cases.
  destruct (gather_kicks_in ch toblam w (mkState (st_db s) ((st_trace s ++ t1) ++ t2))) as [t3 [E3 F3]].
  rewrite replay_no_store in E3
    by (eapply Forall_impl; [|exact F3]; intros [] He; simpl in *; tauto).
  assert (K3 : Forall (kick_ok ch w (st_db s)) t3).
  { eapply Forall_impl; [|exact F3]. intros [] He; simpl in *; try tauto.
    destruct He as [-> Hin]. split; [reflexivity | apply R2, Hin]. }
  destruct (gather (map (_kick_if_possible ch) toblam) w
              (mkState (st_db s) ((st_trace s ++ t1) ++ t2))) as [[v|e|] s3];
    simpl in E3; subst s3.
  - exists (t1 ++ t2 ++ t3 ++ [EvLog "Kicked blammed users due to IDV requirement change"]).
    simpl. rewrite !app_assoc. split; [reflexivity|].
    repeat (apply Forall_app; split); auto. constructor; [exact I | constructor].
  - exists (t1 ++ t2 ++ t3). simpl. rewrite !app_assoc. split; [reflexivity|].
    repeat (apply Forall_app; split); auto.
  - exists (t1 ++ t2 ++ t3). simpl. rewrite !app_assoc. split; [reflexivity|].
    repeat (apply Forall_app; split); auto.
Qed.

Lemma kick_ok_set_level ch w db c lvl e :
  kick_ok ch w (exec_op (SetIdvLevel c lvl) db) e <-> kick_ok ch w db e.
Proof. destruct db, e; simpl; tauto. Qed.

(** The kicks of the policy-set command all come from the sweep. *)
Lemma idv_set_kicks ch level w s :
  exists t, st_trace (snd (idv_set ch level w s)) = st_trace s ++ t /\
            Forall (kick_ok ch w (st_db s)) t.
Proof.
  unfold idv_set. destruct (valid_level level); unfold negb; cbv iota zeta beta.
  2: { exists [EvRespond "Usage: /blam idv [required/under18/off], defaults to required"].
       split; [reflexivity | constructor; [exact I | constructor]]. }
  unfold get_idv_required_level. rewrite bind_assoc_run, bind_get_db_run, bind_ret_run.
  destruct (Nat.eqb (get_idv_required_level_db ch (st_db s)) (levelnum_of level)).
  { eexists. split; [reflexivity | constructor; [exact I | constructor]]. }
  erewrite bind_ok_run by (apply try_except_ok_run; apply store_respond_run).
  set (s1 := mkState _ _).
  destruct (_ && _).
  - destruct (sweep_kicks ch (levelnum_of level) w s1) as [t [E F]].
    assert (F' : Forall (kick_ok ch w (st_db s)) t).
    { eapply Forall_impl; [|exact F]. intros e He. apply kick_ok_set_level in He. exact He. }
    unfold try_except. destruct (sweep ch (levelnum_of level) w s1) as [[a|e|] s2];
      simpl in E; subst s2; simpl.
    + eexists. rewrite <- app_assoc. split; [reflexivity|].
      apply Forall_app. split; [repeat constructor | exact F'].
    + eexists. rewrite <- !app_assoc. split; [reflexivity|].
      apply Forall_app. split; [repeat constructor|].
      apply Forall_app. split; [exact F' | repeat constructor].
    + eexists. rewrite <- app_assoc. split; [reflexivity|].
      apply Forall_app. split; [repeat constructor | exact F'].
  - eexists. split; [reflexivity | repeat constructor].
Qed.

Lemma self_join_quiet ev : only quiet_ev (invite_admin_on_self_join ev).
Proof. unfold invite_admin_on_self_join. only_auto. Qed.

Lemma join_after_self_check ev w s :
  exists t (r : res unit) s1,
    handle_member_joined_channel ev w s =
      match r with
      | Ok _ => enforce_on_join (je_channel ev) (je_user ev) w s1
      | Raise e => (Raise e, s1)
      | Diverge => (Diverge, s1)
      end
    /\ s1 = mkState (st_db s) (st_trace s ++ t) /\ Forall quiet_ev t.
Proof.
  unfold handle_member_joined_channel. rewrite bind_run_cases.
  destruct (self_join_quiet ev w s) as [t [E F]].
  rewrite replay_no_store in E by (eapply Forall_impl; [|exact F]; intros [] He; simpl in *; tauto).
  destruct (invite_admin_on_self_join ev w s) as [r s1]. simpl in E. subst s1.
  exists t, r, (mkState (st_db s) (st_trace s ++ t)).
  destruct r; auto.
Qed.

Lemma enforce_on_join_whitelisted ch u w s :
  mem u (list_whitelisted_db ch (st_db s)) = true -> enforce_on_join ch u w s = (Ok tt, s).
Proof.
  intro H. unfold enforce_on_join. rewrite bind_ask_run.
  unfold list_whitelisted. rewrite bind_assoc_run, bind_get_db_run, bind_ret_run, H.
  destruct s. reflexivity.
Qed.

Lemma enforce_on_join_admin_level0 ch w s :
  get_idv_required_level_db ch (st_db s) = 0 -> enforce_on_join ch (ADMIN_ID w) w s = (Ok tt, s).
Proof.
  intro H. unfold enforce_on_join. rewrite bind_ask_run.
  unfold list_whitelisted. rewrite bind_assoc_run, bind_get_db_run, bind_ret_run.
  destruct (mem (ADMIN_ID w) (list_whitelisted_db ch (st_db s))); [destruct s; reflexivity|].
  rewrite String.eqb_refl, bind_ret_run.
  unfold get_idv_required_level. rewrite bind_assoc_run, bind_get_db_run, bind_ret_run, H.
  destruct s. reflexivity.
Qed.

Lemma join_handler_returns_quietly ev w s :
  (forall s', st_db s' = st_db s -> enforce_on_join (je_channel ev) (je_user ev) w s' = (Ok tt, s')) ->
  exists t, snd (handle_member_joined_channel ev w s) = mkState (st_db s) (st_trace s ++ t)
            /\ Forall quiet_ev t.
Proof.
  intro Henf. destruct (join_after_self_check ev w s) as [t [r [s1 [E [-> F]]]]].
  exists t. rewrite E. destruct r; simpl; auto.
  rewrite Henf by reflexivity. simpl. auto.
Qed.

Lemma needs_kick_exempt lvl wl u w s :
  String.eqb u (ADMIN_ID w) || mem u wl = true -> needs_kick lvl wl u w s = (Ok 0, s).
Proof. intro H. unfold needs_kick. rewrite bind_ask_run, H. reflexivity. Qed.

(** ** C1: the operator's exemption *)

(** The dry-run count never counts the operator, the policy-change sweep
    never kicks the operator, and on the member-joined path a channel whose
    level is 0 never kicks the operator, whatever the blam list and the
    whitelist. *)
Lemma operator_exempt_count_sweep_join ch level lvl wl a w s :
  needs_kick lvl wl (ADMIN_ID w) w s = (Ok 0, s) /\
  (exists t, st_trace (snd (idv_set ch level w s)) = st_trace s ++ t /\
             forall c, ~ In (EvKick c (ADMIN_ID w)) t) /\
  (get_idv_required_level_db ch (st_db s) = 0 ->
   exists t, snd (handle_member_joined_channel (mkJoinEvent (ADMIN_ID w) ch a) w s)
             = mkState (st_db s) (st_trace s ++ t) /\ Forall (fun e => ~ is_kick e) t).
Proof.
  split; [|split].
  - apply needs_kick_exempt. rewrite String.eqb_refl. reflexivity.
  - destruct (idv_set_kicks ch level w s) as [t [E F]]. exists t. split; [exact E|].
    intros c Hin. rewrite Forall_forall in F. specialize (F _ Hin). simpl in F. tauto.
  - intro H0. destruct (join_handler_returns_quietly (mkJoinEvent (ADMIN_ID w) ch a) w s)
      as [t [E F]].
    + intros s' Hs'. apply enforce_on_join_admin_level0. simpl. rewrite Hs'. exact H0.
    + exists t. split; [exact E|]. eapply Forall_impl; [|exact F]. intros [] He; simpl in *; tauto.
Qed.

(** C1, counterexample: an authorized [/blam <@UADMIN>] blams and kicks the
    operator. *)
Lemma blam_command_kicks_operator :
  In (EvKick "C1" "UADMIN")
     (st_trace (snd (run (handle_blam (mkCommand "C1" "U1" "<@UADMIN>")) w0 empty_db))).
Proof. vm_compute. intuition. Qed.

(** On the member-joined path the operator is exempt from the blam check
    only: with the level at [required] an unverified operator is kicked. *)
Example join_kicks_unverified_operator :
  In (EvKick "C1" "UADMIN")
     (st_trace (snd (run (handle_member_joined_channel (mkJoinEvent "UADMIN" "C1" "UBOT")) w0
                         (mkDb [] [] [("C1", 1)])))).
Proof. vm_compute. intuition. Qed.

(** ** C2: the whitelist overrides blam and verification *)

(** C2. For a user whitelisted in a channel: the member-joined handler
    performs no bot or identity lookup and no kick (it returns right after
    the whitelist read, the self-check invite apart); the dry-run count
    gives 0 for the user without any lookup; and the policy-change sweep
    never kicks the user. *)
Theorem whitelist_exempts_on_enforcement_paths ch u lvl level a w s :
  mem u (list_whitelisted_db ch (st_db s)) = true ->
  (exists t, snd (handle_member_joined_channel (mkJoinEvent u ch a) w s)
             = mkState (st_db s) (st_trace s ++ t) /\ Forall quiet_ev t) /\
  needs_kick lvl (list_whitelisted_db ch (st_db s)) u w s = (Ok 0, s) /\
  (exists t, st_trace (snd (idv_set ch level w s)) = st_trace s ++ t /\
             forall c, ~ In (EvKick c u) t).
Proof.
  intro Hwl. split; [|split].
  - apply join_handler_returns_quietly. intros s' Hs'.
    apply enforce_on_join_whitelisted. simpl. rewrite Hs'. exact Hwl.
  - apply needs_kick_exempt. rewrite Hwl, orb_true_r. reflexivity.
  - destruct (idv_set_kicks ch level w s) as [t [E F]]. exists t. split; [exact E|].
    intros c Hin. rewrite Forall_forall in F. specialize (F _ Hin). simpl in F.
    rewrite Hwl in F. destruct F as [_ [_ F]]. discriminate F.
Qed.

Lemma whitelist_exempts_on_enforcement_paths_witness :
  mem "U2" (list_whitelisted_db "C1" (mkDb [("C1", "U2")] [("C1", "U2")] [("C1", 2)])) = true /\
  let s := mkState (mkDb [("C1", "U2")] [("C1", "U2")] [("C1", 2)]) [] in
  (exists t, snd (handle_member_joined_channel (mkJoinEvent "U2" "C1" "UBOT") w0 s)
             = mkState (st_db s) (st_trace s ++ t) /\ Forall quiet_ev t) /\
  needs_kick 2 (list_whitelisted_db "C1" (st_db s)) "U2" w0 s = (Ok 0, s) /\
  (exists t, st_trace (snd (idv_set "C1" "required" w0 s)) = st_trace s ++ t /\
             forall c, ~ In (EvKick c "U2") t).
Proof.
  split; [reflexivity|].
  apply (whitelist_exempts_on_enforcement_paths "C1" "U2" 2 "required" "UBOT" w0
           (mkState (mkDb [("C1", "U2")] [("C1", "U2")] [("C1", 2)]) [])).
  reflexivity.
Defined.

(** ** C10: [whitelist remove] falls through to the single-user branch *)

(** C10. For a [whitelist remove <user>] command whose third token is a
    valid user id, the handler removes the whitelist entry, confirms the
    removal, and then goes on into the single-user whitelist branch with
    the token [remove], which is not a user id: it sends the second response
    [Please mention a user, e.g., /blam whitelist @user] and writes nothing
    more to the store. *)
Theorem whitelist_remove_falls_through ch t0 t1 t2 rest w s :
  lower t1 = "remove" -> user_id_re_match (before_bar t2) = true ->
  whitelist_cmd ch (t0 :: t1 :: t2 :: rest) w s =
  (Ok tt, mkState (exec_op (RemoveWhitelist ch (before_bar t2)) (st_db s))
     (st_trace s ++ [EvStore (RemoveWhitelist ch (before_bar t2));
                     EvRespond ("Removed whitelist for " ++ mention (before_bar t2) ++ " in this channel.");
                     EvRespond "Please mention a user, e.g., /blam whitelist @user"])).
Proof.
  intros H1 H2. unfold whitelist_cmd. cbv zeta. rewrite H1.
  unfold whitelist_remove. rewrite H2.
  destruct s as [db tr].
  unfold bind, try_except, store, respond, emit, ret. simpl.
  rewrite <- !app_assoc. reflexivity.
Qed.

Lemma whitelist_remove_falls_through_witness :
  lower "REMOVE" = "remove" /\ user_id_re_match (before_bar "U0123ABC") = true /\
  whitelist_cmd "C1" ["whitelist"; "REMOVE"; "U0123ABC"] w0
    (mkState (mkDb [] [("C1", "U0123ABC")] []) []) =
  (Ok tt, mkState (exec_op (RemoveWhitelist "C1" "U0123ABC") (mkDb [] [("C1", "U0123ABC")] []))
     ([] ++ [EvStore (RemoveWhitelist "C1" "U0123ABC");
             EvRespond ("Removed whitelist for " ++ mention "U0123ABC" ++ " in this channel.");
             EvRespond "Please mention a user, e.g., /blam whitelist @user"])).
Proof.
  split; [reflexivity | split; [reflexivity|]].
  apply (whitelist_remove_falls_through "C1" "whitelist" "REMOVE" "U0123ABC" []
           w0 (mkState (mkDb [] [("C1", "U0123ABC")] []) [])); reflexivity.
Defined.

(** ** C9: whitelisting a single user *)

Lemma lower_ascii_not_uw c :
  Ascii.eqb (lower_ascii c) "U"%char || Ascii.eqb (lower_ascii c) "W"%char = false.
Proof. destruct c as [[] [] [] [] [] [] [] []]; reflexivity. Qed.

(** A lowered token never starts with [U] or [W]: [_USER_ID_RE] never
    matches it. *)
Lemma user_id_re_lower s : user_id_re_match (before_bar (lower s)) = false.
Proof.
  destruct s as [|c rest]; [reflexivity|]. simpl.
  destruct (Ascii.eqb (lower_ascii c) "|"%char); [reflexivity|].
  unfold user_id_re_match. rewrite lower_ascii_not_uw. reflexivity.
Qed.

(** C9 (the single-user command).  [/blam whitelist <token>] with any token
    other than [channel] and [remove] matches [_USER_ID_RE] against the
    lowered token, which never matches: the handler only answers with the
    usage message, and no BlamEntry is deleted and no WhitelistEntry
    added. *)
Theorem whitelist_single_user_never_stores ch t0 t1 rest w s :
  lower t1 <> "channel" -> lower t1 <> "remove" ->
  whitelist_cmd ch (t0 :: t1 :: rest) w s =
  (Ok tt, mkState (st_db s)
     (st_trace s ++ [EvRespond "Please mention a user, e.g., /blam whitelist @user"])).
Proof.
  intros H1 H2. apply String.eqb_neq in H1, H2.
  unfold whitelist_cmd. cbv zeta. rewrite H1, H2, user_id_re_lower.
  destruct s. reflexivity.
Qed.

Lemma whitelist_single_user_never_stores_witness :
  lower "U0123ABC" <> "channel" /\ lower "U0123ABC" <> "remove" /\
  whitelist_cmd "C1" ["whitelist"; "U0123ABC"] w0
    (mkState (mkDb [("C1", "U0123ABC")] [] []) []) =
  (Ok tt, mkState (mkDb [("C1", "U0123ABC")] [] [])
     ([] ++ [EvRespond "Please mention a user, e.g., /blam whitelist @user"])).
Proof.
  split; [discriminate | split; [discriminate|]].
  apply (whitelist_single_user_never_stores "C1" "whitelist" "U0123ABC" [] w0
           (mkState (mkDb [("C1", "U0123ABC")] [] []) [])); discriminate.
Defined.

(** C9, failing input: the operator runs [/blam whitelist U0123ABC] where
    [U0123ABC] is blammed; the store is unchanged (the BlamEntry stays, no
    WhitelistEntry) and the answer is the usage message. *)
Lemma whitelist_user_keeps_blam :
  let db := mkDb [("C1", "U0123ABC")] [] [] in
  let s := snd (run (handle_blam (mkCommand "C1" "UADMIN" "whitelist U0123ABC")) w0 db) in
  st_db s = db /\
  In "U0123ABC" (list_blammed_db "C1" (st_db s)) /\
  ~ In "U0123ABC" (list_whitelisted_db "C1" (st_db s)) /\
  In (EvRespond "Please mention a user, e.g., /blam whitelist @user") (st_trace s).
Proof. vm_compute. intuition discriminate. Qed.

(** The channel-wide operation does delete the BlamEntry of every member. *)
Example whitelist_channel_sample :
  st_db (snd (run (handle_blam (mkCommand "C1" "UADMIN" "whitelist channel")) w0
                  (mkDb [("C1", "U2")] [] [])))
  = mkDb [] [("C1", "UBOT"); ("C1", "U2"); ("C1", "U1"); ("C1", "UADMIN")] [].
Proof. reflexivity. Qed.

(** ** C3: failures of the identity lookup *)

(** C3. The verdict ignores the HTTP status: whatever the status, a JSON
    body gives the verdict of its [result] field ([is_idved] holds for
    [verified_eligible] and [verified_but_over_18]); a transport failure or
    a body that is not JSON raises out of [is_idved] and
    [is_idved_under18] instead of giving the not-eligible verdict. *)
Theorem idv_verdict_on_failures u w s :
  (forall status r, idv_endpoint w u = IdvResponse status (BodyJson r) ->
     fst (is_idved u w s) = Ok (is_verified_status r) /\
     fst (is_idved_under18 u w s) = Ok (is_under18_status r)) /\
  (forall status, idv_endpoint w u = IdvTransportError \/
                  idv_endpoint w u = IdvResponse status BodyMalformed ->
     exists e, fst (is_idved u w s) = Raise e /\ fst (is_idved_under18 u w s) = Raise e).
Proof.
  unfold is_idved, is_idved_under18, idvstatus. split.
  - intros st r H. unfold bind, ask, emit. simpl. rewrite H.
    destruct (Nat.eqb st 200); split; reflexivity.
  - intros st [H|H]; unfold bind, ask, emit; simpl; rewrite H.
    + eexists; split; reflexivity.
    + destruct (Nat.eqb st 200); eexists; split; reflexivity.
Qed.

Lemma idv_verdict_on_failures_witness :
  fst (is_idved "U503" w_idv_bad (mkState empty_db [])) = Ok true /\
  exists e, fst (is_idved "UDOWN" w_idv_bad (mkState empty_db [])) = Raise e /\
            fst (is_idved_under18 "UDOWN" w_idv_bad (mkState empty_db [])) = Raise e.
Proof.
  split.
  - exact (proj1 (proj1 (idv_verdict_on_failures "U503" w_idv_bad (mkState empty_db []))
                    503 (Some "verified_eligible") eq_refl)).
  - apply (proj2 (idv_verdict_on_failures "UDOWN" w_idv_bad (mkState empty_db [])) 0).
    left. reflexivity.
Defined.

(** C3, failing inputs, with the channel's level at [required]: the
    member-joined handler keeps [U503], whose lookup answered [503], and the
    transport failure for [UDOWN] escapes the handler as an exception. *)
Lemma idv_failure_admits_or_raises :
  let db := mkDb [] [] [("C1", 1)] in
  fst (run (handle_member_joined_channel (mkJoinEvent "U503" "C1" "UBOT")) w_idv_bad db) = Ok tt /\
  ~ In (EvKick "C1" "U503")
      (st_trace (snd (run (handle_member_joined_channel (mkJoinEvent "U503" "C1" "UBOT")) w_idv_bad db))) /\
  fst (run (handle_member_joined_channel (mkJoinEvent "UDOWN" "C1" "UBOT")) w_idv_bad db)
    = Raise (OtherError "aiohttp.ClientError").
Proof. vm_compute. intuition discriminate. Qed.

(** ** C6: empty pages of the member listings of [main.py] *)

(** C6. The member listings of [main.py] stop on an empty cursor only: on
    a channel whose pages are all empty and carry a cursor, both the
    collecting loop and the member scan (authorization and
    [_is_channel_manager]) run out of any amount of fuel. *)
Theorem main_member_loops_ignore_empty_pages n ch cur users u s :
  fst (collect_members n ch cur users w_empty_pages s) = Diverge /\
  fst (member_scan n ch u cur w_empty_pages s) = Diverge.
Proof.
  revert cur users s. induction n as [|n IH]; intros cur users s; [split; reflexivity|].
  split; simpl; [apply (proj1 (IH _ _ _)) | apply (proj2 (IH _ [] _))].
Qed.

(** C6, failing input: [/blam idv test] on such a channel never answers,
    even for the operator. *)
Lemma blam_command_loops_on_empty_pages :
  fst (run (handle_blam (mkCommand "C1" "UADMIN" "idv test")) w_empty_pages empty_db) = Diverge.
Proof. vm_compute. reflexivity. Qed.

(** The edge-API listing of [utils.py] does stop on an empty page. *)
Example utils_listing_stops_on_empty_page :
  _fetch_channel_members 3 (fun m => match m with
                                     | None => EdgeData [Some "U1"; None; Some "U2"] "m1"
                                     | Some _ => EdgeData [] "m2"
                                     end) = Ok ["U1"; "U2"].
Proof. reflexivity. Qed.

(** ** C7: the kick fallback *)

(** C7. An [ok: false] answer of the cookie-session kick is only logged:
    the personal-token kick is not tried.  And when the cookie-session kick
    raises, the personal-token kick raising anything but a [SlackApiError]
    makes [_kick_if_possible] raise. *)
Theorem kick_fallback_paths ch u w s :
  (forall err, kick_xoxc_post w ch u = XoxcJson false err ->
     _kick_if_possible ch u w s =
     (Ok tt, mkState (st_db s)
        (st_trace s ++ [EvKick ch u; EvKickAttempt Xoxc ch u; EvLog "Kick xoxc failed"]))) /\
  (forall e what, kick_xoxc_post w ch u = XoxcRaise e ->
     kick_personal w ch u = Some (OtherError what) ->
     fst (_kick_if_possible ch u w s) = Raise (OtherError what)).
Proof.
  destruct s as [db tr]. unfold _kick_if_possible, _kick_xoxc. split.
  - intros err H. unfold bind, try_except, ask, emit, ret. simpl. rewrite H.
    simpl. rewrite <- !app_assoc. reflexivity.
  - intros e what H1 H2. unfold bind, try_except, try_slack, ask, emit, ret, raise. simpl.
    rewrite H1. simpl. rewrite H2. reflexivity.
Qed.

Lemma kick_fallback_paths_witness :
  _kick_if_possible "C1" "U22" w_kick_fail (mkState empty_db []) =
  (Ok tt, mkState empty_db
     ([] ++ [EvKick "C1" "U22"; EvKickAttempt Xoxc "C1" "U22"; EvLog "Kick xoxc failed"])) /\
  fst (_kick_if_possible "C1" "U11" w_kick_fail (mkState empty_db []))
    = Raise (OtherError "aiohttp.ClientError").
Proof.
  split.
  - exact (proj1 (kick_fallback_paths "C1" "U22" w_kick_fail (mkState empty_db []))
                 "restricted_action" eq_refl).
  - exact (proj2 (kick_fallback_paths "C1" "U11" w_kick_fail (mkState empty_db []))
                 (OtherError "aiohttp.ClientError") "aiohttp.ClientError" eq_refl eq_refl).
Defined.

(** C7, failing inputs: [/blam <@U22>] tries no personal-token kick after
    the [ok: false] answer, and [/blam <@U11>] sees the exception of the
    personal-token kick and answers [Error blamming.]. *)
Lemma kick_failure_paths_sample :
  ~ In (EvKickAttempt PersonalToken "C1" "U22")
      (st_trace (snd (run (handle_blam (mkCommand "C1" "UADMIN" "<@U22>")) w_kick_fail empty_db))) /\
  In (EvRespond "Error blamming.")
      (st_trace (snd (run (handle_blam (mkCommand "C1" "UADMIN" "<@U11>")) w_kick_fail empty_db))).
Proof. vm_compute. intuition discriminate. Qed.

(** ** C8: re-inviting the bot and the operator *)

Lemma ro_manager ch a : only (fun e => ~ mutation e) (_is_channel_manager ch a).
Proof. apply ro_is_channel_manager. auto. Qed.








(** * Further properties of the code *)

(** ** The policy store ([db.py]) *)

Lemma pair_eqb_true a b : pair_eqb a b = true <-> a = b.
Proof.
  destruct a as [a1 a2], b as [b1 b2]. unfold pair_eqb. simpl.
  rewrite andb_true_iff, !String.eqb_eq. split; [intros [-> ->]; reflexivity | intro H; inversion H; auto].
Qed.

Lemma in_insert_or_ignore r x t : In r (insert_or_ignore x t) <-> r = x \/ In r t.
Proof.
  unfold insert_or_ignore. destruct (existsb (pair_eqb x) t) eqn:E; simpl.
  - apply existsb_exists in E. destruct E as [y [Hy Exy]]. apply pair_eqb_true in Exy. subst y.
    split; [auto | intros [->|H]; auto].
  - split; intros [H|H]; auto.
Qed.

Lemma in_delete_row r x t : In r (delete_row x t) <-> r <> x /\ In r t.
Proof.
  unfold delete_row. rewrite filter_In. split.
  - intros [H Hn]. split; [|exact H]. intro Hr. subst r.
    assert (pair_eqb x x = true) by (apply pair_eqb_true; reflexivity).
    rewrite H0 in Hn. discriminate.
  - intros [Hr H]. split; [exact H|]. destruct (pair_eqb x r) eqn:E; [|reflexivity].
    apply pair_eqb_true in E. congruence.
Qed.

Lemma in_select_users ch u t : In u (select_users ch t) <-> In (ch, u) t.
Proof.
  unfold select_users. rewrite in_map_iff. split.
  - intros [[c v] [Hv Hin]]. simpl in Hv. subst v. apply filter_In in Hin.
    destruct Hin as [Hin Hc]. simpl in Hc. apply String.eqb_eq in Hc. subst c. exact Hin.
  - intro H. exists (ch, u). split; [reflexivity|]. apply filter_In. split; [exact H|].
    apply String.eqb_refl.
Qed.

Lemma nodup_insert_or_ignore x t : NoDup t -> NoDup (insert_or_ignore x t).
Proof.
  intro H. unfold insert_or_ignore. destruct (existsb (pair_eqb x) t) eqn:E; [exact H|].
  constructor; [|exact H]. intro Hin.
  assert (existsb (pair_eqb x) t = true) as E'.
  { apply existsb_exists. exists x. split; [exact Hin | apply pair_eqb_true; reflexivity]. }
  congruence.
Qed.

Lemma nodup_select_users ch t : NoDup t -> NoDup (select_users ch t).
Proof.
  induction 1 as [|[c v] t Hnin Hnd IH]; [constructor|].
  unfold select_users in *. simpl. destruct (String.eqb c ch) eqn:E; simpl; [|exact IH].
  constructor; [|exact IH]. apply String.eqb_eq in E. subst c.
  intro Hin. apply Hnin. apply (in_select_users ch v t). exact Hin.
Qed.

Lemma find_upsert_same ch l t :
  find (fun r => String.eqb (fst r) ch) (upsert_level ch l t) = Some (ch, l).
Proof.
  induction t as [|[c lv] t IH]; simpl; [rewrite String.eqb_refl; reflexivity|].
  destruct (String.eqb c ch) eqn:E; simpl; rewrite E; [|exact IH].
  apply String.eqb_eq in E. subst c. reflexivity.
Qed.

Lemma find_upsert_other ch ch' l t :
  ch' <> ch ->
  find (fun r => String.eqb (fst r) ch') (upsert_level ch l t) =
  find (fun r => String.eqb (fst r) ch') t.
Proof.
  intro Hne. induction t as [|[c lv] t IH]; simpl.
  - destruct (String.eqb ch ch') eqn:E; [apply String.eqb_eq in E; congruence | reflexivity].
  - destruct (String.eqb c ch) eqn:E; simpl.
    + apply String.eqb_eq in E. subst c.
      destruct (String.eqb ch ch') eqn:E'; [apply String.eqb_eq in E'; congruence | reflexivity].
    + rewrite IH. reflexivity.
Qed.

Lemma upsert_level_idem ch l t : upsert_level ch l (upsert_level ch l t) = upsert_level ch l t.
Proof.
  induction t as [|[c lv] t IH]; simpl.
  - rewrite String.eqb_refl. reflexivity.
  - destruct (String.eqb c ch) eqn:E; simpl; rewrite E; [reflexivity | rewrite IH; reflexivity].
Qed.

Lemma insert_or_ignore_idem x t : insert_or_ignore x (insert_or_ignore x t) = insert_or_ignore x t.
Proof.
  unfold insert_or_ignore at 2. destruct (existsb (pair_eqb x) t) eqn:E.
  - unfold insert_or_ignore. rewrite E. reflexivity.
  - unfold insert_or_ignore. simpl.
    assert (pair_eqb x x = true) as Hx by (apply pair_eqb_true; reflexivity).
    rewrite Hx, E. reflexivity.
Qed.

Lemma delete_row_idem x t : delete_row x (delete_row x t) = delete_row x t.
Proof.
  unfold delete_row. induction t as [|r t IH]; [reflexivity|]. simpl.
  destruct (pair_eqb x r) eqn:E; simpl; [exact IH|]. rewrite E. simpl. rewrite IH. reflexivity.
Qed.


(** X1. Insert/lookup round trip of the store: after [add_blam(c, u)] the
    user is listed by [list_blammed(c)], after [remove_blam(c, u)] it is
    not; the same for [add_whitelist], [remove_whitelist] and
    [list_whitelisted]. *)
Theorem store_membership_roundtrip ch u db :
  In u (list_blammed_db ch (exec_op (AddBlam ch u) db)) /\
  ~ In u (list_blammed_db ch (exec_op (RemoveBlam ch u) db)) /\
  In u (list_whitelisted_db ch (exec_op (AddWhitelist ch u) db)) /\
  ~ In u (list_whitelisted_db ch (exec_op (RemoveWhitelist ch u) db)).
Proof.
  unfold list_blammed_db, list_whitelisted_db. simpl.
  rewrite !in_select_users, !in_insert_or_ignore, !in_delete_row.
  split; [auto | split; [tauto | split; [auto | tauto]]].
Qed.

(** X2. A write to the row [(c, u)] leaves every other row alone: for
    [(c', v) <> (c, u)], [v] is listed for [c'] after adding or removing
    [(c, u)] exactly when it was before, in both tables. *)
Theorem store_ops_touch_one_row ch u ch' v db :
  (ch', v) <> (ch, u) ->
  (In v (list_blammed_db ch' (exec_op (AddBlam ch u) db)) <-> In v (list_blammed_db ch' db)) /\
  (In v (list_blammed_db ch' (exec_op (RemoveBlam ch u) db)) <-> In v (list_blammed_db ch' db)) /\
  (In v (list_whitelisted_db ch' (exec_op (AddWhitelist ch u) db)) <-> In v (list_whitelisted_db ch' db)) /\
  (In v (list_whitelisted_db ch' (exec_op (RemoveWhitelist ch u) db)) <-> In v (list_whitelisted_db ch' db)).
Proof.
  intro Hne. unfold list_blammed_db, list_whitelisted_db. simpl.
  rewrite !in_select_users, !in_insert_or_ignore, !in_delete_row. tauto.
Qed.

Lemma store_ops_touch_one_row_witness :
  ("C1", "U2") <> ("C1", "U1") /\
  ((In "U2" (list_blammed_db "C1" (exec_op (AddBlam "C1" "U1") (mkDb [("C1", "U2")] [] [])))
    <-> In "U2" (list_blammed_db "C1" (mkDb [("C1", "U2")] [] []))) /\
   (In "U2" (list_blammed_db "C1" (exec_op (RemoveBlam "C1" "U1") (mkDb [("C1", "U2")] [] [])))
    <-> In "U2" (list_blammed_db "C1" (mkDb [("C1", "U2")] [] []))) /\
   (In "U2" (list_whitelisted_db "C1" (exec_op (AddWhitelist "C1" "U1") (mkDb [("C1", "U2")] [] [])))
    <-> In "U2" (list_whitelisted_db "C1" (mkDb [("C1", "U2")] [] []))) /\
   (In "U2" (list_whitelisted_db "C1" (exec_op (RemoveWhitelist "C1" "U1") (mkDb [("C1", "U2")] [] [])))
    <-> In "U2" (list_whitelisted_db "C1" (mkDb [("C1", "U2")] [] [])))).
Proof.
  split; [discriminate|].
  apply (store_ops_touch_one_row "C1" "U1" "C1" "U2" (mkDb [("C1", "U2")] [] [])). discriminate.
Defined.

(** X3. The primary keys hold: when neither pair table has a duplicate
    row, no store operation creates one, and [list_blammed(c)] and
    [list_whitelisted(c)] then list every user at most once. *)
Theorem store_rows_stay_unique op db :
  NoDup (channel_blammed db) -> NoDup (channel_whitelist db) ->
  NoDup (channel_blammed (exec_op op db)) /\ NoDup (channel_whitelist (exec_op op db)) /\
  (forall ch, NoDup (list_blammed_db ch (exec_op op db)) /\
              NoDup (list_whitelisted_db ch (exec_op op db))).
Proof.
  intros Hb Hw.
  assert (NoDup (channel_blammed (exec_op op db)) /\ NoDup (channel_whitelist (exec_op op db)))
    as [Hb' Hw'].
  { destruct op; simpl; split; auto using nodup_insert_or_ignore;
      unfold delete_row; apply NoDup_filter; assumption. }
  split; [exact Hb' | split; [exact Hw'|]]. intro ch.
  split; apply nodup_select_users; assumption.
Qed.

Lemma store_rows_stay_unique_witness :
  NoDup (channel_blammed (mkDb [("C1", "U1")] [] [])) /\
  NoDup (channel_whitelist (mkDb [("C1", "U1")] [] [])) /\
  (NoDup (channel_blammed (exec_op (AddBlam "C1" "U1") (mkDb [("C1", "U1")] [] []))) /\
   NoDup (channel_whitelist (exec_op (AddBlam "C1" "U1") (mkDb [("C1", "U1")] [] []))) /\
   (forall ch, NoDup (list_blammed_db ch (exec_op (AddBlam "C1" "U1") (mkDb [("C1", "U1")] [] []))) /\
               NoDup (list_whitelisted_db ch (exec_op (AddBlam "C1" "U1") (mkDb [("C1", "U1")] [] []))))).
Proof.
  assert (H1 : NoDup [("C1", "U1")]) by (constructor; [intros [] | constructor]).
  assert (H2 : NoDup (@nil (string * string))) by constructor.
  split; [exact H1 | split; [exact H2|]].
  exact (store_rows_stay_unique (AddBlam "C1" "U1") (mkDb [("C1", "U1")] [] []) H1 H2).
Defined.

(** X4. Every store statement is idempotent: running it twice leaves the
    store as running it once ([INSERT OR IGNORE], [DELETE] and the upsert
    of [set_idv_required_level]). *)
Theorem store_ops_idempotent op db : exec_op op (exec_op op db) = exec_op op db.
Proof.
  destruct op; simpl;
    rewrite ?upsert_level_idem, ?insert_or_ignore_idem, ?delete_row_idem; reflexivity.
Qed.

(** X5. [set_idv_required_level(c, l)] then [get_idv_required_level(c)]
    gives [l], and leaves the level of every other channel unchanged. *)
Theorem idv_level_roundtrip ch ch' l db :
  get_idv_required_level_db ch (exec_op (SetIdvLevel ch l) db) = l /\
  (ch' <> ch ->
   get_idv_required_level_db ch' (exec_op (SetIdvLevel ch l) db) = get_idv_required_level_db ch' db).
Proof.
  unfold get_idv_required_level_db. simpl. rewrite find_upsert_same. split; [reflexivity|].
  intro Hne. rewrite find_upsert_other by exact Hne. reflexivity.
Qed.

Lemma idv_level_roundtrip_witness :
  "C2" <> "C1" /\
  get_idv_required_level_db "C2" (exec_op (SetIdvLevel "C1" 2) (mkDb [] [] [("C2", 1)])) =
  get_idv_required_level_db "C2" (mkDb [] [] [("C2", 1)]).
Proof.
  split; [discriminate|].
  apply (proj2 (idv_level_roundtrip "C1" "C2" 2 (mkDb [] [] [("C2", 1)]))). discriminate.
Defined.

(** ** Mentions ([_parse_mention]) *)

Lemma str_app_nil_r s : (s ++ "")%string = s.
Proof. induction s as [|c s IH]; simpl; [reflexivity | rewrite IH; reflexivity]. Qed.

Lemma str_app_assoc a b c : (a ++ (b ++ c))%string = ((a ++ b) ++ c)%string.
Proof. induction a as [|x a IH]; simpl; [reflexivity | rewrite IH; reflexivity]. Qed.

Lemma substring_full s : substring 0 (String.length s) s = s.
Proof. induction s as [|c s IH]; simpl; [reflexivity | rewrite IH; reflexivity]. Qed.

Lemma length_app_gt s : String.length (s ++ ">")%string = S (String.length s).
Proof. induction s as [|c s IH]; simpl; [reflexivity | rewrite IH; reflexivity]. Qed.

Lemma ends_with_gt_app s : ends_with_gt (s ++ ">")%string = true.
Proof.
  induction s as [|c s IH]; [reflexivity|]. simpl.
  destruct (s ++ ">")%string eqn:E; [destruct s; discriminate | exact IH].
Qed.

Lemma drop_last_app s : drop_last (s ++ ">")%string = s.
Proof.
  induction s as [|c s IH]; [reflexivity|]. simpl.
  destruct (s ++ ">")%string eqn:E; [destruct s; discriminate | rewrite IH; reflexivity].
Qed.

Lemma not_bar_of_class c : is_upper_or_digit c = true -> Ascii.eqb c "|"%char = false.
Proof.
  intro H. destruct (Ascii.eqb c "|"%char) eqn:E; [|reflexivity].
  apply Ascii.eqb_eq in E. subst c. discriminate H.
Qed.

Lemma before_bar_cons c s :
  Ascii.eqb c "|"%char = false -> before_bar (String c s) = String c (before_bar s).
Proof. intro H. simpl. rewrite H. reflexivity. Qed.

Lemma before_bar_class_tail s n t :
  class_tail s = Some n -> before_bar (s ++ t)%string = (s ++ before_bar t)%string.
Proof.
  revert n. induction s as [|c rest IH]; intros n H; [reflexivity|].
  destruct rest as [|c' rest'].
  - simpl in H. simpl.
    destruct (Ascii.eqb c "010"%char) eqn:Enl.
    + apply Ascii.eqb_eq in Enl. subst c. reflexivity.
    + destruct (is_upper_or_digit c) eqn:Ec; [|discriminate].
      rewrite (not_bar_of_class c Ec). reflexivity.
  - change (class_tail (String c (String c' rest')))
      with (if is_upper_or_digit c then option_map S (class_tail (String c' rest')) else None) in H.
    destruct (is_upper_or_digit c) eqn:Ec; [|discriminate].
    destruct (class_tail (String c' rest')) as [m|] eqn:Em; [|discriminate].
    change (before_bar (String c (String c' rest' ++ t)%string) = String c (String c' rest' ++ before_bar t)%string).
    rewrite (before_bar_cons c (String c' rest' ++ t)%string (not_bar_of_class c Ec)).
    rewrite (IH m eq_refl). reflexivity.
Qed.

Lemma before_bar_user_id u t :
  user_id_re_match u = true -> before_bar (u ++ t)%string = (u ++ before_bar t)%string.
Proof.
  destruct u as [|c rest]; [discriminate|]. unfold user_id_re_match. intro H.
  apply andb_true_iff in H. destruct H as [Huw H].
  destruct (class_tail rest) as [n|] eqn:En; [|discriminate].
  simpl. destruct (Ascii.eqb c "|"%char) eqn:Eb.
  - apply Ascii.eqb_eq in Eb. subst c. discriminate Huw.
  - rewrite (before_bar_class_tail rest n t En). reflexivity.
Qed.

Lemma parse_mention_inner x :
  _parse_mention ("<@" ++ x ++ ">")%string =
  if user_id_re_match (before_bar x) then Some (before_bar x) else None.
Proof.
  unfold _parse_mention.
  replace (String.prefix "<@" ("<@" ++ x ++ ">")%string) with true by (destruct x; reflexivity).
  replace (ends_with_gt ("<@" ++ x ++ ">")%string) with true
    by (rewrite str_app_assoc; symmetry; apply ends_with_gt_app).
  cbv [andb]. cbv iota.
  change (String.length ("<@" ++ x ++ ">")%string) with (S (S (String.length (x ++ ">")%string))).
  replace (S (S (String.length (x ++ ">")%string)) - 2) with (String.length (x ++ ">")%string) by lia.
  change (substring 2 (String.length (x ++ ">")%string) ("<@" ++ x ++ ">")%string)
    with (substring 0 (String.length (x ++ ">")%string) (x ++ ">")%string).
  rewrite substring_full, drop_last_app. reflexivity.
Qed.

(** X6. [_parse_mention] accepts exactly the mentions of valid ids: for a
    user id matching [_USER_ID_RE], [<@id>] and [<@id|label>] both give
    [id]; and every id it returns matches [_USER_ID_RE]. *)
Theorem parse_mention_roundtrip u label :
  user_id_re_match u = true ->
  _parse_mention (mention u) = Some u /\
  _parse_mention ("<@" ++ u ++ "|" ++ label ++ ">")%string = Some u /\
  (forall tok v, _parse_mention tok = Some v -> user_id_re_match v = true).
Proof.
  intro H. split; [|split].
  - unfold mention. rewrite parse_mention_inner.
    assert (Hb : before_bar u = u).
    { pose proof (before_bar_user_id u "" H) as E. rewrite !str_app_nil_r in E. exact E. }
    rewrite Hb, H. reflexivity.
  - rewrite (str_app_assoc "|" label ">"), (str_app_assoc u ("|" ++ label)%string ">").
    rewrite parse_mention_inner, before_bar_user_id by exact H. simpl.
    rewrite str_app_nil_r, H. reflexivity.
  - intros tok v Hp. unfold _parse_mention in Hp.
    destruct (String.prefix "<@" tok && ends_with_gt tok); [|discriminate].
    cbv zeta in Hp. revert Hp.
    set (cand := before_bar (drop_last (substring 2 (String.length tok - 2) tok))).
    destruct (user_id_re_match cand) eqn:E2; intro Hp; [|discriminate].
    injection Hp as <-. exact E2.
Qed.

Lemma parse_mention_roundtrip_witness :
  user_id_re_match "U0123ABC" = true /\
  _parse_mention (mention "U0123ABC") = Some "U0123ABC" /\
  _parse_mention ("<@" ++ "U0123ABC" ++ "|" ++ "alice" ++ ">")%string = Some "U0123ABC" /\
  (forall tok v, _parse_mention tok = Some v -> user_id_re_match v = true).
Proof.
  split; [reflexivity|]. apply (parse_mention_roundtrip "U0123ABC" "alice"). reflexivity.
Defined.

(** ** The [/blam] handler *)

Lemma only_result P {A} (m : M A) w s a :
  only P m -> (forall e, P e -> ~ is_store e) -> fst (m w s) = Ok a ->
  exists t, m w s = (Ok a, mkState (st_db s) (st_trace s ++ t)) /\ Forall P t.
Proof.
  intros H HP Ha. destruct (H w s) as [t [E F]].
  rewrite replay_no_store in E by (eapply Forall_impl; [|exact F]; exact HP).
  exists t. destruct (m w s) as [r s1]. simpl in *. subst. auto.
Qed.

Lemma scan_quiet n ch u cur :
  only (fun e => ~ mutation e /\ forall msg, e <> EvRespond msg) (member_scan n ch u cur).
Proof.
  revert cur. induction n as [|n IH]; intro cur; simpl;
    repeat (only_step || apply IH ||
            (apply only_emit; [simpl; tauto | split; [simpl; tauto | intros ? Hx; discriminate Hx]])).
Qed.

Lemma scan_result n ch u cur w s b :
  fst (member_scan n ch u cur w s) = Ok b ->
  exists t, member_scan n ch u cur w s = (Ok b, mkState (st_db s) (st_trace s ++ t))
            /\ Forall (fun e => ~ mutation e /\ forall msg, e <> EvRespond msg) t.
Proof.
  apply only_result; [apply scan_quiet|]. intros e [He _]. apply ns_of_ro, He.
Qed.

(** X7. A [/blam] command from someone other than the operator who is not
    found in the channel's member listing gets the answer [You are not
    authorized to use this command.] and nothing else happens: the listing
    is the only other effect. *)
Theorem handle_blam_unauthorized cmd w s :
  cmd_user_id cmd <> ADMIN_ID w ->
  fst (member_scan (fuel w) (cmd_channel_id cmd) (cmd_user_id cmd) None w s) = Ok false ->
  exists t, handle_blam cmd w s =
    (Ok tt, mkState (st_db s)
       (st_trace s ++ t ++ [EvRespond "You are not authorized to use this command."]))
    /\ Forall (fun e => ~ mutation e /\ forall msg, e <> EvRespond msg) t.
Proof.
  intros Hne Hscan. destruct (scan_result _ _ _ _ _ _ _ Hscan) as [t [E F]].
  exists t. split; [|exact F].
  unfold handle_blam. cbv zeta. rewrite bind_ask_run. rewrite (bind_ok_run _ _ _ _ _ _ E).
  apply String.eqb_neq in Hne. rewrite Hne. simpl. unfold respond, emit. simpl. rewrite <- app_assoc. reflexivity.
Qed.

Lemma handle_blam_unauthorized_witness :
  "U9" <> ADMIN_ID w0 /\
  fst (member_scan (fuel w0) "C1" "U9" None w0 (mkState empty_db [])) = Ok false /\
  exists t, handle_blam (mkCommand "C1" "U9" "list") w0 (mkState empty_db []) =
    (Ok tt, mkState empty_db
       ([] ++ t ++ [EvRespond "You are not authorized to use this command."]))
    /\ Forall (fun e => ~ mutation e /\ forall msg, e <> EvRespond msg) t.
Proof.
  split; [discriminate | split; [reflexivity|]].
  apply (handle_blam_unauthorized (mkCommand "C1" "U9" "list") w0 (mkState empty_db []));
    [discriminate | reflexivity].
Defined.

(** X8. For an authorized actor (the operator, or a member found in the
    listing), a command without a channel id is answered [Cannot determine
    channel.] and a command with an empty text is answered with the help
    text, with no other effect than the member listing. *)
Theorem handle_blam_edge_inputs cmd w s found :
  fst (member_scan (fuel w) (cmd_channel_id cmd) (cmd_user_id cmd) None w s) = Ok found ->
  cmd_user_id cmd = ADMIN_ID w \/ found = true ->
  (cmd_channel_id cmd = "" ->
   exists t, handle_blam cmd w s =
     (Ok tt, mkState (st_db s) (st_trace s ++ t ++ [EvRespond "Cannot determine channel."]))
     /\ Forall (fun e => ~ mutation e /\ forall msg, e <> EvRespond msg) t) /\
  (cmd_channel_id cmd <> "" -> split_ws (cmd_text cmd) = [] ->
   exists t, handle_blam cmd w s =
     (Ok tt, mkState (st_db s) (st_trace s ++ t ++ [EvRespond HELP_TEXT]))
     /\ Forall (fun e => ~ mutation e /\ forall msg, e <> EvRespond msg) t).
Proof.
  intros Hscan Hauth. destruct (scan_result _ _ _ _ _ _ _ Hscan) as [t [E F]].
  assert (Hgate : negb (String.eqb (cmd_user_id cmd) (ADMIN_ID w)) && negb found = false).
  { destruct Hauth as [-> | ->]; [rewrite String.eqb_refl | rewrite andb_false_r]; reflexivity. }
  unfold handle_blam. cbv zeta. rewrite bind_ask_run. rewrite (bind_ok_run _ _ _ _ _ _ E).
  rewrite Hgate. split.
  - intro Hch. exists t. split; [|exact F]. rewrite Hch. simpl. unfold respond, emit. simpl. rewrite <- app_assoc. reflexivity.
  - intros Hch Htok. exists t. split; [|exact F].
    apply String.eqb_neq in Hch. rewrite Hch, Htok. simpl. unfold respond, emit. simpl. rewrite <- app_assoc. reflexivity.
Qed.

Lemma handle_blam_edge_inputs_witness :
  fst (member_scan (fuel w0) "C1" "U1" None w0 (mkState empty_db [])) = Ok true /\
  ("U1" = ADMIN_ID w0 \/ true = true) /\
  ("C1" <> "" -> split_ws "   " = [] ->
   exists t, handle_blam (mkCommand "C1" "U1" "   ") w0 (mkState empty_db []) =
     (Ok tt, mkState empty_db ([] ++ t ++ [EvRespond HELP_TEXT]))
     /\ Forall (fun e => ~ mutation e /\ forall msg, e <> EvRespond msg) t).
Proof.
  split; [reflexivity | split; [right; reflexivity|]].
  exact (proj2 (handle_blam_edge_inputs (mkCommand "C1" "U1" "   ") w0 (mkState empty_db []) true
                  eq_refl (or_intror eq_refl))).
Defined.

(** X9. When joining a public channel ([C...]) fails with a Slack error
    other than [method_not_supported_for_channel_type], an authorized
    command ends silently: no answer at all is sent (the [respond] call
    there is not awaited) and nothing is written or kicked. *)
Theorem handle_blam_join_failure_is_silent cmd w s found t0 rest err :
  fst (member_scan (fuel w) (cmd_channel_id cmd) (cmd_user_id cmd) None w s) = Ok found ->
  cmd_user_id cmd = ADMIN_ID w \/ found = true ->
  cmd_channel_id cmd <> "" -> split_ws (cmd_text cmd) = t0 :: rest ->
  String.prefix "C" (cmd_channel_id cmd) = true ->
  conversations_join w (cmd_channel_id cmd) = Some (SlackApiError err) ->
  err <> "method_not_supported_for_channel_type" ->
  exists t, handle_blam cmd w s =
    (Ok tt, mkState (st_db s)
       (st_trace s ++ t ++ [EvJoin (cmd_channel_id cmd); EvLog "Failed to join channel"]))
    /\ Forall (fun e => ~ mutation e /\ forall msg, e <> EvRespond msg) t.
Proof.
  intros Hscan Hauth Hch Htok Hpre Hjoin Herr.
  destruct (scan_result _ _ _ _ _ _ _ Hscan) as [t [E F]].
  assert (Hgate : negb (String.eqb (cmd_user_id cmd) (ADMIN_ID w)) && negb found = false).
  { destruct Hauth as [-> | ->]; [rewrite String.eqb_refl | rewrite andb_false_r]; reflexivity. }
  exists t. split; [|exact F].
  unfold handle_blam. cbv zeta. rewrite bind_ask_run. rewrite (bind_ok_run _ _ _ _ _ _ E).
  rewrite Hgate. apply String.eqb_neq in Hch, Herr. rewrite Hch, Htok.
  cbv [negb andb]. cbv iota.
  unfold join_if_public. rewrite Hpre. unfold bind at 1 2. simpl. rewrite Hjoin, Herr. simpl.
  rewrite <- !app_assoc. reflexivity.
Qed.

Lemma handle_blam_join_failure_is_silent_witness :
  exists t, handle_blam (mkCommand "C1" "UADMIN" "list")
              (mkWorld "UADMIN" "UBOT" (fun _ _ => MembersPage ["UADMIN"] "")
                 (fun _ => Some (SlackApiError "channel_not_found"))
                 (fun _ => None) (fun _ => None) (fun _ => IdvTransportError)
                 (fun _ _ => XoxcJson true "") (fun _ _ => None) (fun _ _ => None) 5 true)
              (mkState empty_db []) =
    (Ok tt, mkState empty_db ([] ++ t ++ [EvJoin "C1"; EvLog "Failed to join channel"]))
    /\ Forall (fun e => ~ mutation e /\ forall msg, e <> EvRespond msg) t.
Proof.
  apply (handle_blam_join_failure_is_silent (mkCommand "C1" "UADMIN" "list") _
           (mkState empty_db []) true "list" [] "channel_not_found");
    first [reflexivity | left; reflexivity | discriminate].
Defined.

(** ** [/blam remove] and [/blam add] *)

(** X10. [/blam remove <@u>] deletes the BlamEntry of [u], answers
    [Unblammed <@u> in this channel.] and kicks nobody. *)
Theorem blam_remove_unblams ch tokens tok u w s :
  nth_error tokens 1 = Some tok -> _parse_mention tok = Some u ->
  blam_cmd ch "remove" tokens w s =
  (Ok tt, mkState (exec_op (RemoveBlam ch u) (st_db s))
     (st_trace s ++ [EvStore (RemoveBlam ch u);
                     EvRespond ("Unblammed " ++ mention u ++ " in this channel.")])).
Proof.
  intros Htok Hu. unfold blam_cmd. cbv zeta.
  replace (String.eqb "remove" "add" || String.eqb "remove" "remove") with true by reflexivity.
  replace (String.eqb "remove" "remove") with true by reflexivity.
  cbv iota. rewrite Htok, Hu. apply try_except_ok_run. apply store_respond_run.
Qed.

Lemma blam_remove_unblams_witness :
  blam_cmd "C1" "remove" ["remove"; "<@U0123ABC>"] w0 (mkState (mkDb [("C1", "U0123ABC")] [] []) []) =
  (Ok tt, mkState (exec_op (RemoveBlam "C1" "U0123ABC") (mkDb [("C1", "U0123ABC")] [] []))
     ([] ++ [EvStore (RemoveBlam "C1" "U0123ABC");
             EvRespond ("Unblammed " ++ mention "U0123ABC" ++ " in this channel.")])).
Proof.
  apply (blam_remove_unblams "C1" ["remove"; "<@U0123ABC>"] "<@U0123ABC>" "U0123ABC" w0
           (mkState (mkDb [("C1", "U0123ABC")] [] []) [])); reflexivity.
Defined.

Lemma kick_trace ch u w s :
  exists t r, _kick_if_possible ch u w s = (r, mkState (st_db s) (st_trace s ++ EvKick ch u :: t))
              /\ Forall (fun e => ~ is_store e /\ ~ is_lookup e) t.
Proof.
  unfold _kick_if_possible at 1. rewrite bind_emit_run. cbv beta.
  match goal with
  | |- exists t r, ?m ?w' ?s' = _ /\ _ =>
      assert (Hm : only (fun e => ~ is_store e /\ ~ is_lookup e) m);
      [unfold _kick_xoxc; only_auto
      |destruct (Hm w' s') as [t [E F]]; exists t, (fst (m w' s'));
       rewrite replay_no_store in E by (eapply Forall_impl; [|exact F]; intros e [He _]; exact He);
       destruct (m w' s') as [r s1]; simpl in E |- *; subst s1; simpl;
       rewrite <- app_assoc; split; [reflexivity | exact F]]
  end.
Qed.

(** X11. [/blam <@u>] and [/blam add <@u>] record the BlamEntry of [u]
    first and then call the kick, whatever the kick's outcome: even when
    the kick fails, the entry stays in the store. *)
Theorem blam_add_records_entry ch first tokens tok u w s :
  String.eqb first "remove" = false ->
  nth_error tokens (if String.eqb first "add" then 1 else 0) = Some tok ->
  _parse_mention tok = Some u ->
  exists t, snd (blam_cmd ch first tokens w s) =
    mkState (exec_op (AddBlam ch u) (st_db s))
      (st_trace s ++ EvStore (AddBlam ch u) :: EvKick ch u :: t)
    /\ Forall (fun e => ~ is_store e) t.
Proof.
  intros Hr Htok Hu. unfold blam_cmd. cbv zeta. rewrite Hr, orb_false_r.
  assert (Hact : String.eqb (if String.eqb first "add" then first else "add") "remove" = false)
    by (destruct (String.eqb first "add"); [exact Hr | reflexivity]).
  rewrite Htok, Hu, Hact. destruct s as [db tr].
  unfold try_except. rewrite bind_run_cases.
  change (store (AddBlam ch u) w (mkState db tr))
    with (@Ok unit tt, mkState (exec_op (AddBlam ch u) db) (tr ++ [EvStore (AddBlam ch u)])).
  cbv iota beta. rewrite bind_run_cases.
  destruct (kick_trace ch u w (mkState (exec_op (AddBlam ch u) db) (tr ++ [EvStore (AddBlam ch u)])))
    as [t [r [Ek Fk]]].
  rewrite Ek. simpl st_db. simpl st_trace.
  assert (Fk' : Forall (fun e => ~ is_store e) t)
    by (eapply Forall_impl; [|exact Fk]; intros e [He _]; exact He).
  destruct r as [[]|e|]; cbv iota beta.
  - exists (t ++ [EvRespond ("Blammed " ++ mention u ++ " in this channel.")]).
    unfold respond, emit. simpl. rewrite <- !app_assoc. simpl.
    split; [reflexivity | apply Forall_app; split; [exact Fk' | constructor; [simpl; tauto | constructor]]].
  - exists (t ++ [EvLog "Failed to blam"; EvRespond "Error blamming."]).
    unfold bind, respond, emit. simpl. rewrite <- !app_assoc. simpl.
    split; [reflexivity|].
    apply Forall_app; split; [exact Fk' | repeat constructor; simpl; tauto].
  - exists t. simpl. rewrite <- app_assoc. split; [reflexivity | exact Fk'].
Qed.

Lemma blam_add_records_entry_witness :
  exists t, snd (blam_cmd "C1" "<@u22>" ["<@U22>"] w_kick_fail (mkState empty_db [])) =
    mkState (exec_op (AddBlam "C1" "U22") empty_db)
      ([] ++ EvStore (AddBlam "C1" "U22") :: EvKick "C1" "U22" :: t)
    /\ Forall (fun e => ~ is_store e) t.
Proof.
  apply (blam_add_records_entry "C1" "<@u22>" ["<@U22>"] "<@U22>" "U22" w_kick_fail
           (mkState empty_db [])); reflexivity.
Defined.

(** ** [/blam idv test off] *)

Lemma user_is_bot_ok u w s : exists b, fst (user_is_bot u w s) = Ok b.
Proof.
  unfold user_is_bot, bind, ask, emit. simpl.
  destruct (users_info_xoxc w u); [eexists; reflexivity|].
  destruct (users_info w u); eexists; reflexivity.
Qed.

Lemma needs_kick_off wl u w s : fst (needs_kick 0 wl u w s) = Ok 0.
Proof.
  unfold needs_kick. rewrite bind_ask_run.
  destruct (String.eqb u (ADMIN_ID w) || mem u wl); [reflexivity|].
  rewrite bind_run_cases. destruct (user_is_bot_ok u w s) as [b Hb].
  destruct (user_is_bot u w s) as [r s1]. simpl in Hb. subst r.
  destruct b; reflexivity.
Qed.

Lemma run_all_const {A} (ms : list (M A)) a :
  (forall m, In m ms -> forall w s, fst (m w s) = Ok a) ->
  forall w s, fst (run_all ms w s) = Ok (repeat (Ok a) (length ms)).
Proof.
  induction ms as [|m ms IH]; intros H w s; [reflexivity|].
  simpl run_all. rewrite bind_run_cases. unfold attempt.
  pose proof (H m (or_introl eq_refl) w s) as Hm.
  destruct (m w s) as [r s1]. simpl in Hm. subst r.
  rewrite bind_run_cases.
  assert (IH' := IH (fun m' Hm' => H m' (or_intror Hm')) w s1).
  destruct (run_all ms w s1) as [r2 s2]. simpl in IH'. subst r2. reflexivity.
Qed.

Lemma first_failure_repeat {A} (a : A) n : first_failure (repeat (Ok a) n) = Ok (repeat a n).
Proof. induction n as [|n IH]; simpl; [reflexivity | rewrite IH; reflexivity]. Qed.

Lemma gather_const {A} (ms : list (M A)) a w s :
  (forall m, In m ms -> forall w s, fst (m w s) = Ok a) ->
  fst (gather ms w s) = Ok (repeat a (length ms)).
Proof.
  intro H. unfold gather. rewrite bind_run_cases.
  pose proof (run_all_const ms a H w s) as E.
  destruct (run_all ms w s) as [r s1]. simpl in E. subst r.
  rewrite first_failure_repeat. reflexivity.
Qed.

Lemma sum_nat_repeat_0 n : sum_nat (repeat 0 n) = 0.
Proof. induction n as [|n IH]; [reflexivity | exact IH]. Qed.

(** X12. [/blam idv test off] always reports [0 users would be kicked if
    IDV requirement were set to off.] once the member listing succeeds,
    whatever the members, the whitelist and the lookups say, and changes
    nothing. *)
Theorem idv_test_off_reports_zero ch t0 t1 t2 rest w s users :
  lower t2 = "off" -> fst (list_members ch w s) = Ok users ->
  exists t, idv_test ch (t0 :: t1 :: t2 :: rest) w s =
    (Ok tt, mkState (st_db s)
       (st_trace s ++ t ++ [EvRespond "0 users would be kicked if IDV requirement were set to off."]))
    /\ Forall (fun e => ~ mutation e) t.
Proof.
  intros Hl Hm. unfold idv_test. cbv zeta. rewrite Hl.
  replace (negb (valid_level "off")) with false by reflexivity.
  replace (levelnum_of "off") with 0 by reflexivity. cbv iota.
  destruct (only_result _ (list_members ch) w s users
              (ro_list_members _ (fun e h => h) ch) ns_of_ro Hm) as [ta [Ea Fa]].
  unfold try_except. rewrite bind_run_cases, Ea. cbv iota beta.
  unfold list_whitelisted. rewrite bind_assoc_run, bind_get_db_run, bind_ret_run.
  rewrite bind_run_cases.
  set (s1 := mkState (st_db s) (st_trace s ++ ta)).
  set (ms := map (needs_kick 0 (list_whitelisted_db ch (st_db s1))) users).
  assert (Hg : fst (gather ms w s1) = Ok (repeat 0 (length ms))).
  { apply gather_const. intros m Hin w' s'. unfold ms in Hin.
    apply in_map_iff in Hin. destruct Hin as [u [<- _]]. apply needs_kick_off. }
  assert (Ho : only (fun e => ~ mutation e) (gather ms)).
  { apply only_gather. apply Forall_forall. intros m Hin. unfold ms in Hin.
    apply in_map_iff in Hin. destruct Hin as [u [<- _]]. apply ro_needs_kick. auto. }
  destruct (only_result _ (gather ms) w s1 _ Ho ns_of_ro Hg) as [tb [Eb Fb]].
  rewrite Eb. cbv iota beta. rewrite sum_nat_repeat_0.
  exists (ta ++ tb). split; [|apply Forall_app; auto].
  unfold respond, emit. simpl. rewrite <- !app_assoc. reflexivity.
Qed.

Lemma idv_test_off_reports_zero_witness :
  exists t, idv_test "C1" ["idv"; "test"; "OFF"] w0 (mkState empty_db []) =
    (Ok tt, mkState empty_db
       ([] ++ t ++ [EvRespond "0 users would be kicked if IDV requirement were set to off."]))
    /\ Forall (fun e => ~ mutation e) t.
Proof.
  apply (idv_test_off_reports_zero "C1" "idv" "test" "OFF" [] w0 (mkState empty_db [])
           ["UADMIN"; "U1"; "U2"; "UBOT"]); reflexivity.
Defined.

(** ** [handle_member_left_channel] for other users *)

(** X13. When a member leaves, an event without a channel or without a user
    id is ignored outright, and the departure of a user who is neither the
    admin nor the bot (or no bot id is configured) is never answered by a
    store, a kick or an invite. *)
Theorem left_other_user_no_reinvite ch u a w s :
  ((ch = "" \/ u = "") -> handle_member_left_channel (mkLeftEvent ch u a) w s = (Ok tt, s)) /\
  (u <> ADMIN_ID w -> (BOT_USER_ID w = "" \/ u <> BOT_USER_ID w) ->
   exists t, snd (handle_member_left_channel (mkLeftEvent ch u a) w s)
               = mkState (st_db s) (st_trace s ++ t)
             /\ Forall (fun e => ~ mutation e) t).
Proof.
  unfold handle_member_left_channel. cbn [le_channel le_user le_actor]. split.
  - intros [-> | ->]; [reflexivity|]. rewrite orb_true_r. reflexivity.
  - intros Hadm Hbot.
    destruct (String.eqb ch "" || String.eqb u "").
    { exists []. destruct s; simpl. rewrite app_nil_r. split; [reflexivity|constructor]. }
    rewrite bind_run_cases.
    destruct (ro_manager ch a w s) as [t [E F]].
    rewrite (replay_no_store t (st_db s)) in E
      by (eapply Forall_impl; [|exact F]; exact ns_of_ro).
    destruct (_is_channel_manager ch a w s) as [r s1]. simpl in E. subst s1.
    destruct r as [[|]| |]; try (exists t; split; [reflexivity|exact F]).
    rewrite bind_ask_run.
    assert (Hb : negb (String.eqb (BOT_USER_ID w) "") && String.eqb u (BOT_USER_ID w) = false).
    { destruct Hbot as [Hb | Hb].
      - rewrite Hb. reflexivity.
      - apply String.eqb_neq in Hb. rewrite Hb. apply andb_false_r. }
    rewrite Hb. apply String.eqb_neq in Hadm. rewrite Hadm.
    exists t. split; [reflexivity|exact F].
Qed.

Lemma left_other_user_no_reinvite_witness :
  handle_member_left_channel (mkLeftEvent "" "U9" "") w0 (mkState empty_db []) =
    (Ok tt, mkState empty_db []) /\
  exists t, snd (handle_member_left_channel (mkLeftEvent "C1" "U1" "U1") w0 (mkState empty_db []))
               = mkState empty_db ([] ++ t)
             /\ Forall (fun e => ~ mutation e) t.
Proof.
  split.
  - apply (proj1 (left_other_user_no_reinvite "" "U9" "" w0 (mkState empty_db []))).
    left; reflexivity.
  - apply (proj2 (left_other_user_no_reinvite "C1" "U1" "U1" w0 (mkState empty_db [])));
      [discriminate | right; discriminate].
Defined.

(** ** Enforcement on join *)

(** X14. On join, a user who is not whitelisted, is not the admin and is
    blammed in the channel is kicked: the kick is the first event, the store
    is left as it was, and no bot or IDV lookup is made on the way. *)
Theorem join_kicks_blammed_user ch u w s :
  mem u (list_whitelisted_db ch (st_db s)) = false -> u <> ADMIN_ID w ->
  mem u (list_blammed_db ch (st_db s)) = true ->
  exists t, snd (enforce_on_join ch u w s) = mkState (st_db s) (st_trace s ++ EvKick ch u :: t)
            /\ Forall (fun e => ~ is_store e /\ ~ is_lookup e) t.
Proof.
  intros Hwl Hadm Hbl.
  unfold enforce_on_join. rewrite bind_ask_run. unfold list_whitelisted.
  rewrite bind_assoc_run, bind_get_db_run, bind_ret_run, Hwl.
  apply String.eqb_neq in Hadm. rewrite Hadm. unfold list_blammed.
  rewrite !bind_assoc_run, bind_get_db_run, !bind_ret_run, Hbl.
  cbn [negb andb]. cbv beta iota. rewrite bind_ret_run. cbv beta iota zeta.
  cbn [andb]. unfold try_except. rewrite bind_run_cases.
  destruct (kick_trace ch u w s) as [t [r [Ek Fk]]]. rewrite Ek.
  destruct r as [[]|e|].
  - exists (t ++ [EvLog "Kicked blammed user on join"]). unfold emit. simpl.
    rewrite <- app_assoc. split; [reflexivity|].
    apply Forall_app. split; [exact Fk|]. repeat constructor; simpl; tauto.
  - exists (t ++ [EvLog "Failed to kick blammed user"]). unfold emit. simpl.
    rewrite <- app_assoc. split; [reflexivity|].
    apply Forall_app. split; [exact Fk|]. repeat constructor; simpl; tauto.
  - exists t. split; [reflexivity|exact Fk].
Qed.

Lemma join_kicks_blammed_user_witness :
  exists t, snd (enforce_on_join "C1" "U22" w0 (mkState (mkDb [("C1", "U22")] [] []) []))
              = mkState (mkDb [("C1", "U22")] [] []) ([] ++ EvKick "C1" "U22" :: t)
            /\ Forall (fun e => ~ is_store e /\ ~ is_lookup e) t.
Proof.
  apply (join_kicks_blammed_user "C1" "U22" w0 (mkState (mkDb [("C1", "U22")] [] []) []));
    [reflexivity | discriminate | reflexivity].
Defined.

(** X15. On join, a user who is not whitelisted and is the admin or not
    blammed is left alone when the channel requires no IDV level; when it
    requires one and the cookie-session lookup reports a bot, the handler
    only records the bot lookup and the skip, and kicks no one. *)
Theorem join_without_cause_keeps_member ch u w s :
  mem u (list_whitelisted_db ch (st_db s)) = false ->
  (u = ADMIN_ID w \/ mem u (list_blammed_db ch (st_db s)) = false) ->
  (get_idv_required_level_db ch (st_db s) = 0 -> enforce_on_join ch u w s = (Ok tt, s)) /\
  (0 < get_idv_required_level_db ch (st_db s) -> users_info_xoxc w u = Some true ->
   enforce_on_join ch u w s =
     (Ok tt, mkState (st_db s) (st_trace s ++ [EvBotLookup u; EvLog "skipping kick for bot"]))).
Proof.
  intros Hwl Hcase.
  unfold enforce_on_join. rewrite bind_ask_run. unfold list_whitelisted.
  rewrite bind_assoc_run, bind_get_db_run, bind_ret_run, Hwl.
  cbv beta iota.
  match goal with
  | |- context [bind (if ?c then ret true else ?m) ?k w s] =>
      assert (Hb : bind (if c then ret true else m) k w s = k true w s)
  end.
  { destruct Hcase as [Ha | Hbl].
    - rewrite <- Ha, String.eqb_refl. reflexivity.
    - destruct (String.eqb u (ADMIN_ID w)); [reflexivity|].
      unfold list_blammed. rewrite !bind_assoc_run, bind_get_db_run, !bind_ret_run, Hbl.
      reflexivity. }
  rewrite Hb. cbv beta iota. unfold get_idv_required_level.
  rewrite bind_assoc_run, bind_get_db_run, !bind_ret_run. cbv beta zeta.
  split.
  - intro Hl. rewrite Hl. destruct s. reflexivity.
  - intros Hl Hx. apply Nat.ltb_lt in Hl. rewrite Hl. cbn [andb]. cbv iota.
    unfold user_is_bot. rewrite !bind_assoc_run, bind_ask_run, bind_assoc_run, bind_emit_run, Hx.
    rewrite bind_ret_run. cbv iota. unfold emit. simpl. rewrite <- app_assoc. reflexivity.
Qed.

Lemma join_without_cause_keeps_member_witness :
  enforce_on_join "C1" "U22" w0 (mkState empty_db []) = (Ok tt, mkState empty_db []) /\
  enforce_on_join "C1" "UBOT" w0 (mkState (mkDb [] [] [("C1", 1)]) []) =
    (Ok tt, mkState (mkDb [] [] [("C1", 1)]) ([] ++ [EvBotLookup "UBOT"; EvLog "skipping kick for bot"])).
Proof.
  split.
  - apply (proj1 (join_without_cause_keeps_member "C1" "U22" w0 (mkState empty_db [])
                    eq_refl (or_intror eq_refl))).
    reflexivity.
  - apply (proj2 (join_without_cause_keeps_member "C1" "UBOT" w0 (mkState (mkDb [] [] [("C1", 1)]) [])
                    eq_refl (or_intror eq_refl))); [apply Nat.ltb_lt; reflexivity | reflexivity].
Defined.

(** ** [/blam whitelist channel] *)

Lemma whitelist_each_run ch users w s :
  for_each (fun user_id => store (RemoveBlam ch user_id) ;; store (AddWhitelist ch user_id)) users w s =
  (Ok tt, mkState (fold_left (whitelist_step ch) users (st_db s))
            (st_trace s ++ flat_map (fun u => [EvStore (RemoveBlam ch u); EvStore (AddWhitelist ch u)]) users)).
Proof.
  revert s. induction users as [|u users IH]; intro s.
  - destruct s. simpl. rewrite app_nil_r. reflexivity.
  - cbn [for_each]. rewrite bind_assoc_run.
    erewrite bind_ok_run by reflexivity. erewrite bind_ok_run by reflexivity.
    rewrite IH. simpl. rewrite <- !app_assoc. reflexivity.
Qed.

Lemma whitelist_fold_keeps ch u users db :
  In (ch, u) (channel_whitelist db) /\ ~ In (ch, u) (channel_blammed db) ->
  In (ch, u) (channel_whitelist (fold_left (whitelist_step ch) users db)) /\
  ~ In (ch, u) (channel_blammed (fold_left (whitelist_step ch) users db)).
Proof.
  revert db. induction users as [|v users IH]; intros db [Hw Hb]; [tauto|].
  simpl. apply IH. simpl. split.
  - apply in_insert_or_ignore. right. exact Hw.
  - rewrite in_delete_row. intros [_ H]. exact (Hb H).
Qed.

Lemma whitelist_fold_covers ch u users db :
  In u users ->
  In (ch, u) (channel_whitelist (fold_left (whitelist_step ch) users db)) /\
  ~ In (ch, u) (channel_blammed (fold_left (whitelist_step ch) users db)).
Proof.
  revert db. induction users as [|v users IH]; intros db Hin; [destruct Hin|].
  destruct Hin as [<- | Hin]; [|apply IH; exact Hin].
  simpl. apply whitelist_fold_keeps. simpl. split.
  - apply in_insert_or_ignore. left. reflexivity.
  - rewrite in_delete_row. intros [H _]. exact (H eq_refl).
Qed.

(** X16. Once the member listing succeeds, [/blam whitelist channel]
    answers [Whitelisted all users currently in the channel.] and leaves every
    listed member whitelisted and not blammed in the channel. *)
Theorem whitelist_channel_covers_members ch t0 t1 rest users w s :
  lower t1 = "channel" -> fst (list_members ch w s) = Ok users ->
  exists t db',
    whitelist_cmd ch (t0 :: t1 :: rest) w s =
      (Ok tt, mkState db' (st_trace s ++ t ++ [EvRespond "Whitelisted all users currently in the channel."]))
    /\ forall u, In u users -> In u (list_whitelisted_db ch db') /\ ~ In u (list_blammed_db ch db').
Proof.
  intros Hl Hm. unfold whitelist_cmd. cbv zeta. rewrite Hl, String.eqb_refl.
  destruct (only_result _ (list_members ch) w s users
              (ro_list_members _ (fun e h => h) ch) ns_of_ro Hm) as [ta [Ea _]].
  unfold try_except. rewrite bind_run_cases, Ea. cbv iota beta.
  rewrite bind_run_cases, whitelist_each_run. cbv iota beta.
  exists (ta ++ flat_map (fun u => [EvStore (RemoveBlam ch u); EvStore (AddWhitelist ch u)]) users).
  exists (fold_left (whitelist_step ch) users (st_db s)). split.
  - unfold respond, emit. simpl. rewrite <- !app_assoc. reflexivity.
  - intros u Hu. unfold list_whitelisted_db, list_blammed_db. rewrite !in_select_users.
    apply whitelist_fold_covers. exact Hu.
Qed.

Lemma whitelist_channel_covers_members_witness :
  exists t db',
    whitelist_cmd "C1" ["whitelist"; "Channel"] w0 (mkState (mkDb [("C1", "U1")] [] []) []) =
      (Ok tt, mkState db' ([] ++ t ++ [EvRespond "Whitelisted all users currently in the channel."]))
    /\ forall u, In u ["UADMIN"; "U1"; "U2"; "UBOT"] ->
         In u (list_whitelisted_db "C1" db') /\ ~ In u (list_blammed_db "C1" db').
Proof.
  apply (whitelist_channel_covers_members "C1" "whitelist" "Channel" []
           ["UADMIN"; "U1"; "U2"; "UBOT"] w0 (mkState (mkDb [("C1", "U1")] [] []) []));
    reflexivity.
Defined.

(** ** [utils._fetch_channel_members] *)

(** X17. The edge-API listing only ever appends to the members gathered so
    far, and never appends an empty user id; a first page with no results
    ends the listing with what was gathered, and an [error] field raises
    [edge users.list failed: <error>]. *)
Theorem fetch_members_loop_behaviour n api marker acc :
  (forall r, fetch_members_loop n api marker acc = Ok r ->
             exists r', r = acc ++ r' /\ ~ In "" r') /\
  (forall nm, api marker = EdgeData [] nm -> fetch_members_loop (S n) api marker acc = Ok acc) /\
  (forall e, api marker = EdgeError e ->
             fetch_members_loop (S n) api marker acc
             = Raise (OtherError ("edge users.list failed: " ++ e))).
Proof.
  split; [|split].
  - revert marker acc. induction n as [|n IH]; intros marker acc r H; [discriminate|].
    cbn [fetch_members_loop] in H. destruct (api marker) as [e|results nm]; [discriminate|].
    set (f := fun r : option string => match r with
                                       | Some u => if String.eqb u "" then [] else [u]
                                       | None => []
                                       end) in H.
    assert (Hf : ~ In "" (flat_map f results)).
    { intro Hin. apply in_flat_map in Hin. destruct Hin as [[x|] [_ Hx]]; [|exact Hx].
      simpl in Hx. destruct (String.eqb x "") eqn:E; [exact Hx|].
      destruct Hx as [Hx|[]]. subst x. discriminate E. }
    destruct (String.eqb nm "" || match results with [] => true | _ => false end).
    + injection H as <-. exists (flat_map f results). split; [reflexivity|exact Hf].
    + apply IH in H. destruct H as [r' [-> Hr']].
      exists (flat_map f results ++ r'). split; [apply eq_sym, app_assoc|].
      intro Hin. apply in_app_or in Hin. tauto.
  - intros nm H. cbn [fetch_members_loop]. rewrite H. simpl. rewrite orb_true_r, app_nil_r.
    reflexivity.
  - intros e H. cbn [fetch_members_loop]. rewrite H. reflexivity.
Qed.

Lemma fetch_members_loop_behaviour_witness :
  (exists r', ["U1"] = [] ++ r' /\ ~ In "" r') /\
  fetch_members_loop 1 (fun _ => EdgeData [] "m2") None ["U1"] = Ok ["U1"] /\
  fetch_members_loop 1 (fun _ => EdgeError "ratelimited") None []
    = Raise (OtherError ("edge users.list failed: " ++ "ratelimited")).
Proof.
  split; [|split].
  - apply (proj1 (fetch_members_loop_behaviour 3
             (fun m => match m with
                       | None => EdgeData [Some "U1"; None; Some ""] "m2"
                       | Some _ => EdgeData [] ""
                       end) None [])).
    reflexivity.
  - apply (proj1 (proj2 (fetch_members_loop_behaviour 0 (fun _ => EdgeData [] "m2") None ["U1"])) "m2").
    reflexivity.
  - apply (proj2 (proj2 (fetch_members_loop_behaviour 0 (fun _ => EdgeError "ratelimited") None []))).
    reflexivity.
Defined.

(** ** [is_idved] and [is_idved_under18] *)

(** X18. The under-18 check is the stricter one: whenever
    [is_idved_under18] returns [True] for a user, [is_idved] returns [True]
    for the same user against the same endpoint, with the same trace. *)
Theorem idved_under18_implies_idved u w s :
  fst (is_idved_under18 u w s) = Ok true ->
  is_idved u w s = (Ok true, snd (is_idved_under18 u w s)).
Proof.
  unfold is_idved, is_idved_under18. rewrite !bind_run_cases.
  destruct (idvstatus u w s) as [[r|e|] s1]; simpl; try discriminate.
  destruct r as [st|]; simpl; [|discriminate].
  intro H. injection H as H. rewrite H. reflexivity.
Qed.

Lemma idved_under18_implies_idved_witness :
  is_idved "U1" w0 (mkState empty_db []) = (Ok true, snd (is_idved_under18 "U1" w0 (mkState empty_db []))).
Proof. apply idved_under18_implies_idved. reflexivity. Defined.

(** ** [handle_member_joined_channel] *)

(** X19. A join by anyone but the installing user goes straight to the
    enforcement.  When the installing user itself joins, the operator is
    invited first: on success or on a [SlackApiError] (which is only logged)
    the enforcement then runs on the state the invite left, while any other
    exception of the invite ends the handler before the enforcement. *)
Theorem member_joined_invites_then_enforces ev w s :
  let ch := je_channel ev in
  let u := je_user ev in
  let s_inv := mkState (st_db s) (st_trace s ++ [EvInvite ch (ADMIN_ID w)]) in
  (u <> je_authorized_user ev ->
     handle_member_joined_channel ev w s = enforce_on_join ch u w s) /\
  (u = je_authorized_user ev -> conversations_invite w ch (ADMIN_ID w) = None ->
     handle_member_joined_channel ev w s = enforce_on_join ch u w s_inv) /\
  (forall err, u = je_authorized_user ev ->
     conversations_invite w ch (ADMIN_ID w) = Some (SlackApiError err) ->
     handle_member_joined_channel ev w s =
     enforce_on_join ch u w
       (mkState (st_db s) (st_trace s ++ [EvInvite ch (ADMIN_ID w);
                                          EvLog "Failed to invite admin to channel"]))) /\
  (forall what, u = je_authorized_user ev ->
     conversations_invite w ch (ADMIN_ID w) = Some (OtherError what) ->
     handle_member_joined_channel ev w s = (Raise (OtherError what), s_inv)).
Proof.
  cbv zeta. unfold handle_member_joined_channel, invite_admin_on_self_join.
  rewrite bind_assoc_run, bind_ask_run.
  split; [|split; [|split]].
  - intro H. apply String.eqb_neq in H. rewrite H. reflexivity.
  - intros H Hi. apply String.eqb_eq in H. rewrite H.
    rewrite bind_assoc_run, bind_emit_run, bind_run_cases. unfold try_slack. rewrite Hi.
    reflexivity.
  - intros err H Hi. apply String.eqb_eq in H. rewrite H.
    rewrite bind_assoc_run, bind_emit_run, bind_run_cases. unfold try_slack. rewrite Hi.
    unfold raise, emit. simpl. rewrite <- app_assoc. reflexivity.
  - intros what H Hi. apply String.eqb_eq in H. rewrite H.
    rewrite bind_assoc_run, bind_emit_run, bind_run_cases. unfold try_slack. rewrite Hi.
    reflexivity.
Qed.

Lemma member_joined_invites_then_enforces_witness :
  handle_member_joined_channel (mkJoinEvent "U1" "C1" "U2") w0 (mkState empty_db []) =
    enforce_on_join "C1" "U1" w0 (mkState empty_db []) /\
  handle_member_joined_channel (mkJoinEvent "U1" "C1" "U1") w0 (mkState empty_db []) =
    enforce_on_join "C1" "U1" w0 (mkState empty_db ([] ++ [EvInvite "C1" "UADMIN"])).
Proof.
  split.
  - apply (proj1 (member_joined_invites_then_enforces (mkJoinEvent "U1" "C1" "U2") w0
                    (mkState empty_db []))). discriminate.
  - apply (proj1 (proj2 (member_joined_invites_then_enforces (mkJoinEvent "U1" "C1" "U1") w0
                           (mkState empty_db [])))); reflexivity.
Defined.

(** ** The posting-permission helpers of [utils.py] *)

Lemma filter_len_le {A} (f : A -> bool) (l : list A) : length (filter f l) <= length l.
Proof. induction l as [|a l IH]; simpl; [lia|]. destruct (f a); simpl; lia. Qed.

Lemma filter_len_lt {A} (f : A -> bool) (l : list A) x :
  In x l -> f x = false -> length (filter f l) < length l.
Proof.
  induction l as [|a l IH]; intros Hin Hf; [destruct Hin|].
  destruct Hin as [-> | Hin]; simpl.
  - rewrite Hf. pose proof (filter_len_le f l). lia.
  - destruct (f a); simpl; [specialize (IH Hin Hf); lia|].
    pose proof (filter_len_le f l). lia.
Qed.

Lemma filter_all_true {A} (f : A -> bool) (l : list A) :
  (forall x, In x l -> f x = true) -> filter f l = l.
Proof.
  induction l as [|a l IH]; intro H; [reflexivity|]. simpl.
  rewrite (H a (or_introl eq_refl)). f_equal. apply IH. intros x Hx. apply H. right. exact Hx.
Qed.

(** X20. [_prevent_channel_post], once the current posting list is read:
    when none of its users is to be removed, no set request is sent; any
    value it sends lists exactly the users of the current list that are not
    removed ([type:admin] alone when none is left); and when some user is
    removed and the set request fails, it raises with the message
    [channels.prefs.get failed: <error>]. *)
Theorem prevent_channel_post_behaviour api ch remove users :
  Utils.prefs_get api ch = Utils.PrefsGetOk users ->
  let kept := filter (fun u => negb (mem u remove)) users in
  ((forall u, In u users -> mem u remove = false) ->
     Utils._prevent_channel_post api ch remove = (Ok tt, [])) /\
  (forall v, In v (snd (Utils._prevent_channel_post api ch remove)) ->
     exists kept', v = match kept' with [] => "type:admin" | _ => Utils.prefs_value kept' end /\
       (forall u, In u kept' <-> In u users /\ mem u remove = false)) /\
  (forall u err, In u users -> mem u remove = true ->
     Utils.prefs_set api ch (match kept with [] => "type:admin" | _ => Utils.prefs_value kept end)
       = Some err ->
     fst (Utils._prevent_channel_post api ch remove)
       = Raise (OtherError ("channels.prefs.get failed: " ++ err))).
Proof.
  intro Hg. cbv zeta. unfold Utils._prevent_channel_post. rewrite Hg. cbv zeta.
  split; [|split].
  - intro Hall. rewrite filter_all_true, Nat.eqb_refl; [reflexivity|].
    intros x Hx. rewrite (Hall x Hx). reflexivity.
  - intros v Hv. destruct (Nat.eqb _ _); [destruct Hv|].
    unfold Utils.prefs_set_call in Hv. simpl in Hv. destruct Hv as [<- | []].
    exists (filter (fun u => negb (mem u remove)) users). split; [reflexivity|].
    intro u. rewrite filter_In. destruct (mem u remove); simpl; intuition discriminate.
  - intros u err Hu Hr Hs.
    assert (Hlt : length (filter (fun u => negb (mem u remove)) users) < length users).
    { apply (filter_len_lt _ _ u Hu). rewrite Hr. reflexivity. }
    destruct (Nat.eqb _ _) eqn:E; [apply Nat.eqb_eq in E; lia|].
    unfold Utils.prefs_set_call. rewrite Hs. reflexivity.
Qed.

Lemma prevent_channel_post_behaviour_witness :
  let api := Utils.mkPrefsApi (fun _ => Utils.PrefsGetOk ["U1"; "U2"])
               (fun _ _ => Some "invalid_prefs") (fun _ => EdgeData [] "") 1 in
  Utils._prevent_channel_post api "C1" ["U9"] = (Ok tt, []) /\
  fst (Utils._prevent_channel_post api "C1" ["U2"])
    = Raise (OtherError ("channels.prefs.get failed: " ++ "invalid_prefs")).
Proof.
  cbv zeta. split.
  - apply (prevent_channel_post_behaviour
             (Utils.mkPrefsApi (fun _ => Utils.PrefsGetOk ["U1"; "U2"])
                (fun _ _ => Some "invalid_prefs") (fun _ => EdgeData [] "") 1)
             "C1" ["U9"] ["U1"; "U2"] eq_refl).
    intros u [<- | [<- | []]]; reflexivity.
  - apply (prevent_channel_post_behaviour
             (Utils.mkPrefsApi (fun _ => Utils.PrefsGetOk ["U1"; "U2"])
                (fun _ _ => Some "invalid_prefs") (fun _ => EdgeData [] "") 1)
             "C1" ["U2"] ["U1"; "U2"] eq_refl) with (u := "U2");
      [right; left; reflexivity | reflexivity | reflexivity].
Defined.

(** X21. [_allow_channel_post]: with a non-empty current posting list, or
    with [bypass], it sends one set request listing the current users
    followed by the added ones.  With an empty list and no [bypass], it
    lists the channel members from the edge API instead, leaving out the ids
    it was asked to add, and raises [edge users.list returned no members]
    without any set request when that listing is empty. *)
Theorem allow_channel_post_behaviour api ch add bypass :
  (forall users, Utils.prefs_get api ch = Utils.PrefsGetOk users ->
     (users <> [] \/ bypass = true) ->
     Utils._allow_channel_post api ch add bypass =
     Utils.prefs_set_call api ch (Utils.prefs_value (users ++ add)) "channels.prefs.set failed: ") /\
  (forall members, Utils.prefs_get api ch = Utils.PrefsGetOk [] -> bypass = false ->
     _fetch_channel_members (Utils.edge_fuel api) (Utils.edge_users_list api) = Ok members ->
     (members = [] -> Utils._allow_channel_post api ch add bypass
                      = (Raise (OtherError "edge users.list returned no members"), [])) /\
     (members <> [] -> Utils._allow_channel_post api ch add bypass =
        Utils.prefs_set_call api ch (Utils.prefs_value members) "channels.prefs.set failed: ")).
Proof.
  unfold Utils._allow_channel_post. split.
  - intros users Hg Hc. rewrite Hg.
    replace ((match users with [] => true | _ => false end) && negb bypass) with false;
      [reflexivity|].
    destruct Hc as [Hn | ->]; [destruct users; [congruence | reflexivity] | destruct users; reflexivity].
  - intros members Hg Hb Hf. rewrite Hg, Hb. cbn [andb negb].
    unfold Utils._initialize_channel_post. rewrite Hf. split.
    + intros ->. reflexivity.
    + intro Hn. destruct members as [|m ms]; [congruence|].
      unfold Utils._allow_channel_post_bypass. rewrite Hg. reflexivity.
Qed.

Lemma allow_channel_post_behaviour_witness :
  let api := Utils.mkPrefsApi (fun _ => Utils.PrefsGetOk [])
               (fun _ _ => None) (fun _ => EdgeData [Some "U1"; None] "") 2 in
  Utils._allow_channel_post api "C1" ["U7"] false =
    Utils.prefs_set_call api "C1" (Utils.prefs_value ["U1"]) "channels.prefs.set failed: ".
Proof.
  cbv zeta.
  apply (proj2 (proj2 (allow_channel_post_behaviour
      (Utils.mkPrefsApi (fun _ => Utils.PrefsGetOk [])
         (fun _ _ => None) (fun _ => EdgeData [Some "U1"; None] "") 2) "C1" ["U7"] false)
      ["U1"] eq_refl eq_refl eq_refl)).
  discriminate.
Defined.

(** ** The live sweep and its kicks *)


Lemma user_is_bot_run u w s :
  exists b t, user_is_bot u w s = (Ok b, mkState (st_db s) (st_trace s ++ t)).
Proof.
  destruct s as [db tr]. unfold user_is_bot, bind, ask, emit, ret. simpl.
  destruct (users_info_xoxc w u); [eexists _, _; reflexivity|].
  destruct (users_info w u); [eexists _, _; reflexivity|].
  eexists _, _. cbn [st_db st_trace]. rewrite <- app_assoc. reflexivity.
Qed.

Lemma user_is_bot_fst u w s s' : fst (user_is_bot u w s) = fst (user_is_bot u w s').
Proof.
  unfold user_is_bot, bind, ask, emit, ret. simpl.
  destruct (users_info_xoxc w u); [reflexivity|].
  destruct (users_info w u); reflexivity.
Qed.

Lemma user_is_bot_false u w s :
  users_info_xoxc w u = Some false \/ (users_info_xoxc w u = None /\ users_info w u <> Some true) ->
  fst (user_is_bot u w s) = Ok false.
Proof.
  intro H. unfold user_is_bot, bind, ask, emit, ret. simpl.
  destruct H as [-> | [-> H]]; [reflexivity|].
  destruct (users_info w u) as [[]|]; [congruence | reflexivity | reflexivity].
Qed.

Lemma idvstatus_run v w s st r :
  idv_endpoint w v = IdvResponse st (BodyJson r) ->
  exists t, idvstatus v w s = (Ok r, mkState (st_db s) (st_trace s ++ t)).
Proof.
  intro H. destruct s as [db tr]. unfold idvstatus. rewrite bind_ask_run, bind_emit_run, H.
  destruct (Nat.eqb st 200).
  - eexists. reflexivity.
  - eexists. unfold bind, emit. simpl. rewrite <- app_assoc. reflexivity.
Qed.

Lemma is_idved_run v w s st r :
  idv_endpoint w v = IdvResponse st (BodyJson r) ->
  exists t, is_idved v w s = (Ok (is_verified_status r), mkState (st_db s) (st_trace s ++ t)).
Proof.
  intro H. destruct (idvstatus_run v w s st r H) as [t E].
  exists t. unfold is_idved. rewrite (bind_ok_run _ _ _ _ _ _ E). reflexivity.
Qed.

Lemma is_idved_under18_run v w s st r :
  idv_endpoint w v = IdvResponse st (BodyJson r) ->
  exists t, is_idved_under18 v w s = (Ok (is_under18_status r), mkState (st_db s) (st_trace s ++ t)).
Proof.
  intro H. destruct (idvstatus_run v w s st r H) as [t E].
  exists t. unfold is_idved_under18. rewrite (bind_ok_run _ _ _ _ _ _ E). reflexivity.
Qed.

Lemma collect_members_fst n ch cur acc w s s' :
  fst (collect_members n ch cur acc w s) = fst (collect_members n ch cur acc w s').
Proof.
  revert cur acc s s'. induction n as [|n IH]; intros cur acc s s'; [reflexivity|].
  cbn [collect_members]. rewrite !bind_ask_run, !bind_emit_run. cbv beta.
  destruct (conversations_members w ch cur); [reflexivity|].
  destruct (String.eqb next_cursor ""); [reflexivity | apply IH].
Qed.

Lemma list_members_fst ch w s s' : fst (list_members ch w s) = fst (list_members ch w s').
Proof. unfold list_members. rewrite !bind_ask_run. apply collect_members_fst. Qed.

Lemma list_members_run ch w s users :
  fst (list_members ch w s) = Ok users ->
  exists t, list_members ch w s = (Ok users, mkState (st_db s) (st_trace s ++ t)).
Proof.
  intro H. destruct (only_result (fun e => ~ mutation e) _ w s users
                      (ro_list_members _ (fun e H => H) ch) ns_of_ro H) as [t [E _]].
  exists t. exact E.
Qed.

Lemma kick_not_diverge ch u w s : fst (_kick_if_possible ch u w s) <> Diverge.
Proof.
  unfold _kick_if_possible, _kick_xoxc, try_except, try_slack, bind, emit, ask, ret, raise. simpl.
  destruct (kick_xoxc_post w ch u) as [e|[] err]; simpl; try discriminate;
  destruct (kick_personal w ch u) as [[err'|what]|]; simpl; try discriminate;
  destruct (String.eqb err' "not_in_channel"); discriminate.
Qed.



Lemma sweep_select_run lvl ch users w s :
  (forall v, In v users -> exists st r, idv_endpoint w v = IdvResponse st (BodyJson r)) ->
  exists toblam t,
    sweep_select lvl ch users w s = (Ok toblam, mkState (st_db s) (st_trace s ++ t)) /\
    forall u st r, In u users -> mem u (list_whitelisted_db ch (st_db s)) = false ->
      u <> ADMIN_ID w -> fst (user_is_bot u w s) = Ok false ->
      idv_endpoint w u = IdvResponse st (BodyJson r) ->
      (if Nat.eqb lvl 1 then is_verified_status r
       else if Nat.eqb lvl 2 then is_under18_status r else true) = false ->
      In u toblam.
Proof.
  revert s. induction users as [|v users IH]; intros s Hall.
  { exists [], []. destruct s. simpl. rewrite app_nil_r. split; [reflexivity | intros; contradiction]. }
  assert (Hrest : forall v', In v' users -> exists st r, idv_endpoint w v' = IdvResponse st (BodyJson r))
    by (intros; apply Hall; right; assumption).
  destruct (Hall v (or_introl eq_refl)) as [stv [rv Hv]].
  cbn [sweep_select].
  destruct (user_is_bot_run v w s) as [b [t1 E1]].
  rewrite (bind_ok_run _ _ _ _ _ _ E1).
  set (s1 := mkState (st_db s) (st_trace s ++ t1)).
  (* a step that goes on with the rest without selecting [v] *)
  assert (Hskip : forall s', st_db s' = st_db s ->
            (exists t', s' = mkState (st_db s) (st_trace s ++ t')) ->
            (forall st r, mem v (list_whitelisted_db ch (st_db s)) = false ->
               v <> ADMIN_ID w -> fst (user_is_bot v w s) = Ok false ->
               idv_endpoint w v = IdvResponse st (BodyJson r) ->
               (if Nat.eqb lvl 1 then is_verified_status r
                else if Nat.eqb lvl 2 then is_under18_status r else true) = false -> False) ->
            exists toblam t,
              sweep_select lvl ch users w s' = (Ok toblam, mkState (st_db s) (st_trace s ++ t)) /\
              forall u st r, In u (v :: users) -> mem u (list_whitelisted_db ch (st_db s)) = false ->
                u <> ADMIN_ID w -> fst (user_is_bot u w s) = Ok false ->
                idv_endpoint w u = IdvResponse st (BodyJson r) ->
                (if Nat.eqb lvl 1 then is_verified_status r
                 else if Nat.eqb lvl 2 then is_under18_status r else true) = false ->
                In u toblam).
  { intros s' Hdb [t' ->] Hnot.
    destruct (IH (mkState (st_db s) (st_trace s ++ t')) Hrest) as [toblam [t2 [E2 H2]]].
    exists toblam, (t' ++ t2). rewrite E2. simpl. rewrite <- app_assoc. split; [reflexivity|].
    intros u st r [<-|Hu] Hwl Hadm Hbot Hep Hsel.
    - exfalso. eapply Hnot; eassumption.
    - eapply H2; try eassumption. rewrite <- Hbot. apply user_is_bot_fst. }
  (* a step that selects [v] and goes on with the rest *)
  assert (Hsel : forall s', (exists t', s' = mkState (st_db s) (st_trace s ++ t')) ->
            exists toblam t,
              (toblam <- sweep_select lvl ch users ;; ret (v :: toblam)) w s'
                = (Ok toblam, mkState (st_db s) (st_trace s ++ t)) /\
              forall u st r, In u (v :: users) -> mem u (list_whitelisted_db ch (st_db s)) = false ->
                u <> ADMIN_ID w -> fst (user_is_bot u w s) = Ok false ->
                idv_endpoint w u = IdvResponse st (BodyJson r) ->
                (if Nat.eqb lvl 1 then is_verified_status r
                 else if Nat.eqb lvl 2 then is_under18_status r else true) = false ->
                In u toblam).
  { intros s' [t' ->].
    destruct (IH (mkState (st_db s) (st_trace s ++ t')) Hrest) as [toblam [t2 [E2 H2]]].
    exists (v :: toblam), (t' ++ t2). rewrite (bind_ok_run _ _ _ _ _ _ E2). simpl.
    rewrite <- app_assoc. split; [reflexivity|].
    intros u st r [<-|Hu] Hwl Hadm Hbot Hep Hs; [left; reflexivity|].
    right. eapply H2; try eassumption. rewrite <- Hbot. apply user_is_bot_fst. }
  destruct b.
  { apply Hskip; [reflexivity | exists t1; reflexivity|].
    intros st r _ _ Hbot _ _. rewrite E1 in Hbot. discriminate Hbot. }
  unfold list_whitelisted. rewrite bind_assoc_run, bind_get_db_run, bind_ret_run.
  cbn [st_db s1].
  destruct (mem v (list_whitelisted_db ch (st_db s))) eqn:Hwl.
  { apply Hskip; [reflexivity | exists t1; reflexivity|]. intros st r Hw. congruence. }
  rewrite bind_ask_run.
  destruct (String.eqb v (ADMIN_ID w)) eqn:Hadm.
  { apply Hskip; [reflexivity | exists t1; reflexivity|].
    intros st r _ Hne. apply String.eqb_eq in Hadm. contradiction. }
  destruct (Nat.eqb lvl 1) eqn:Hl1.
  - destruct (is_idved_run v w s1 stv rv Hv) as [t2 E2].
    rewrite (bind_ok_run _ _ _ _ _ _ E2). cbn [s1 st_db st_trace].
    rewrite <- app_assoc.
    destruct (is_verified_status rv) eqn:Hver; cbn [negb].
    + replace (Nat.eqb lvl 2) with false by (apply Nat.eqb_eq in Hl1; subst; reflexivity).
      rewrite bind_ret_run. cbn [negb].
      apply Hskip; [reflexivity | eexists; reflexivity|].
      intros st r _ _ _ Hep Hs. rewrite Hv in Hep. injection Hep as <- <-. congruence.
    + apply Hsel. eexists; reflexivity.
  - rewrite bind_ret_run. cbn [negb].
    destruct (Nat.eqb lvl 2) eqn:Hl2.
    + destruct (is_idved_under18_run v w s1 stv rv Hv) as [t2 E2].
      rewrite (bind_ok_run _ _ _ _ _ _ E2). cbn [s1 st_db st_trace].
      rewrite <- app_assoc.
      destruct (is_under18_status rv) eqn:Hu18; cbn [negb].
      * apply Hskip; [reflexivity | eexists; reflexivity|].
        intros st r _ _ _ Hep Hs. rewrite Hv in Hep. injection Hep as <- <-. congruence.
      * apply Hsel. eexists; reflexivity.
    + rewrite bind_ret_run. cbn [negb].
      apply Hskip; [reflexivity | exists t1; reflexivity|].
      intros st r _ _ _ _ Hs. discriminate Hs.
Qed.

Lemma run_all_kicks ch l w s :
  exists rs t, run_all (map (_kick_if_possible ch) l) w s
               = (Ok rs, mkState (st_db s) (st_trace s ++ t)) /\
               forall u, In u l -> In (EvKick ch u) t.
Proof.
  revert s. induction l as [|u l IH]; intro s.
  { exists [], []. destruct s. simpl. rewrite app_nil_r. split; [reflexivity | intros; contradiction]. }
  cbn [map run_all].
  destruct (kick_trace ch u w s) as [t1 [r [E1 _]]].
  assert (Hr : r <> Diverge).
  { intro Hd. apply (kick_not_diverge ch u w s). rewrite E1, Hd. reflexivity. }
  assert (Ea : attempt (_kick_if_possible ch u) w s
               = (Ok r, mkState (st_db s) (st_trace s ++ EvKick ch u :: t1))).
  { unfold attempt. rewrite E1. destruct r; [reflexivity | reflexivity | contradiction]. }
  rewrite (bind_ok_run _ _ _ _ _ _ Ea).
  destruct (IH (mkState (st_db s) (st_trace s ++ EvKick ch u :: t1))) as [rs [t2 [E2 H2]]].
  rewrite (bind_ok_run _ _ _ _ _ _ E2).
  exists (r :: rs), (EvKick ch u :: t1 ++ t2). simpl. rewrite <- app_assoc. simpl.
  split; [reflexivity|].
  intros v [<-|Hv]; [left; reflexivity|]. right. apply in_or_app. right. apply H2, Hv.
Qed.

Lemma gather_kicks ch l w s :
  exists t, st_trace (snd (gather (map (_kick_if_possible ch) l) w s)) = st_trace s ++ t /\
            st_db (snd (gather (map (_kick_if_possible ch) l) w s)) = st_db s /\
            forall u, In u l -> In (EvKick ch u) t.
Proof.
  destruct (run_all_kicks ch l w s) as [rs [t [E H]]].
  exists t. unfold gather. rewrite (bind_ok_run _ _ _ _ _ _ E).
  destruct (first_failure rs); simpl; auto.
Qed.

Lemma sweep_kicks_selected ch n w s users h :
  fst (list_members ch w s) = Ok users ->
  (forall v, In v users -> exists st r, idv_endpoint w v = IdvResponse st (BodyJson r)) ->
  forall u st r, In u users -> mem u (list_whitelisted_db ch (st_db s)) = false ->
    u <> ADMIN_ID w -> fst (user_is_bot u w s) = Ok false ->
    idv_endpoint w u = IdvResponse st (BodyJson r) ->
    (if Nat.eqb n 1 then is_verified_status r
     else if Nat.eqb n 2 then is_under18_status r else true) = false ->
    In (EvKick ch u) (st_trace (snd (try_except (sweep ch n) (fun _ => emit (EvLog h)) w s))).
Proof.
  intros Hl Hall u st r Hu Hwl Hadm Hbot Hep Hs.
  destruct (list_members_run ch w s users Hl) as [t1 E1].
  destruct (sweep_select_run n ch users w (mkState (st_db s) (st_trace s ++ t1)) Hall)
    as [toblam [t2 [E2 H2]]].
  assert (Hin : In u toblam).
  { eapply H2; try eassumption. rewrite <- Hbot. apply user_is_bot_fst. }
  unfold try_except, sweep. rewrite (bind_ok_run _ _ _ _ _ _ E1), (bind_ok_run _ _ _ _ _ _ E2).
  set (s2 := mkState (st_db (mkState (st_db s) (st_trace s ++ t1))) _).
  destruct (gather_kicks ch toblam w s2) as [t3 [E3 [_ H3]]].
  assert (Hk : In (EvKick ch u) (st_trace (snd (gather (map (_kick_if_possible ch) toblam) w s2)))).
  { rewrite E3. apply in_or_app. right. apply H3, Hin. }
  rewrite bind_run_cases.
  destruct (gather (map (_kick_if_possible ch) toblam) w s2) as [[x|e|] s3]; simpl in Hk |- *;
    unfold emit; simpl; first [exact Hk | apply in_or_app; left; exact Hk].
Qed.

Lemma whitelisted_set_level ch c l db :
  list_whitelisted_db ch (exec_op (SetIdvLevel c l) db) = list_whitelisted_db ch db.
Proof. destruct db. reflexivity. Qed.

Lemma levelnum_of_le level : levelnum_of level <= 2.
Proof.
  unfold levelnum_of.
  destruct (String.eqb level "off"); [lia|].
  destruct (String.eqb level "required"); [lia|].
  destruct (String.eqb level "under18"); lia.
Qed.

(** C4. The policy-set command [/blam idv <level>], for a valid level:
    setting the stored level again only answers "already set", with no store
    write and no kick; any other change writes the level and answers; when
    the stored level was 0 and the new one is nonzero, what follows the
    answer is the live sweep (the member listing comes first), and it kicks
    every listed member who is not a bot, not whitelisted, not the operator
    and fails the identity check of the new level (when the endpoint answers
    with JSON for every member); any other change has nothing at all follow
    the answer. *)
Theorem idv_set_transition_rule ch level w s :
  valid_level level = true ->
  let old := get_idv_required_level_db ch (st_db s) in
  let new := levelnum_of level in
  let set_msg := ("Set IDV requirement to " ++ level ++ " for this channel.")%string in
  (old = new ->
     idv_set ch level w s =
     (Ok tt, mkState (st_db s) (st_trace s ++
        [EvRespond ("IDV requirement is already set to " ++ level ++ " for this channel.")]))) /\
  (old <> new -> ~ (old = 0 /\ 0 < new) ->
     idv_set ch level w s =
     (Ok tt, mkState (exec_op (SetIdvLevel ch new) (st_db s))
               (st_trace s ++ [EvStore (SetIdvLevel ch new); EvRespond set_msg]))) /\
  (old = 0 -> 0 < new -> 0 < fuel w ->
     exists t, snd (idv_set ch level w s) =
       mkState (exec_op (SetIdvLevel ch new) (st_db s))
         (st_trace s ++ [EvStore (SetIdvLevel ch new); EvRespond set_msg; EvListMembers ch] ++ t)
     /\ Forall (fun e => ~ is_store e) t) /\
  (old = 0 -> 0 < new ->
     idv_set ch level w s =
     try_except (sweep ch new) (fun _ => emit (EvLog "Failed to kick blammed users on IDV change")) w
       (mkState (exec_op (SetIdvLevel ch new) (st_db s))
          (st_trace s ++ [EvStore (SetIdvLevel ch new); EvRespond set_msg]))) /\
  (old = 0 -> 0 < new -> forall users u st r,
     fst (list_members ch w s) = Ok users ->
     (forall v, In v users -> exists st' r', idv_endpoint w v = IdvResponse st' (BodyJson r')) ->
     In u users -> mem u (list_whitelisted_db ch (st_db s)) = false -> u <> ADMIN_ID w ->
     (users_info_xoxc w u = Some false \/
      (users_info_xoxc w u = None /\ users_info w u <> Some true)) ->
     idv_endpoint w u = IdvResponse st (BodyJson r) ->
     (if Nat.eqb new 1 then is_verified_status r else is_under18_status r) = false ->
     In (EvKick ch u) (st_trace (snd (idv_set ch level w s)))).
Proof.
  intros Hv old new set_msg.
  destruct (idv_set_runs ch level w s Hv) as [P1 [P2 [P3 P4]]].
  split; [exact P1 | split; [exact P2 | split; [exact P3 | split; [exact P4|]]]].
  intros H0 Hpos users u st r Hl Hall Hu Hwl Hadm Hbot Hep Hs.
  change (levelnum_of level) with new in P4. rewrite (P4 H0 Hpos).
  set (s1 := mkState (exec_op (SetIdvLevel ch new) (st_db s))
               (st_trace s ++ [EvStore (SetIdvLevel ch new); EvRespond set_msg])).
  assert (Hl' : fst (list_members ch w s1) = Ok users) by (rewrite <- Hl; apply list_members_fst).
  assert (Hwl' : mem u (list_whitelisted_db ch (st_db s1)) = false)
    by (unfold s1; cbn [st_db]; rewrite whitelisted_set_level; exact Hwl).
  assert (Hs' : (if Nat.eqb new 1 then is_verified_status r
                 else if Nat.eqb new 2 then is_under18_status r else true) = false).
  { pose proof (levelnum_of_le level) as Hle. fold new in Hle.
    destruct (Nat.eqb new 1) eqn:E1; [exact Hs|].
    replace (Nat.eqb new 2) with true by (symmetry; apply Nat.eqb_eq; apply Nat.eqb_neq in E1; lia).
    exact Hs. }
  exact (sweep_kicks_selected ch new w s1 users _ Hl' Hall u st r Hu Hwl' Hadm
           (user_is_bot_false u w s1 Hbot) Hep Hs').
Qed.

(** Going from 0 to [required] in [C1] kicks the unverified member [U2]. *)
Lemma idv_set_transition_rule_witness :
  In (EvKick "C1" "U2")
     (st_trace (snd (idv_set "C1" "required" w0 (mkState (mkDb [] [] [("C1", 0)]) [])))).
Proof.
  destruct (idv_set_transition_rule "C1" "required" w0 (mkState (mkDb [] [] [("C1", 0)]) [])
              eq_refl) as [_ [_ [_ [_ H]]]].
  apply (H eq_refl (Nat.lt_0_succ 0) ["UADMIN"; "U1"; "U2"; "UBOT"] "U2" 200 (Some "pending")
           eq_refl).
  - intros v _. simpl. destruct (String.eqb v "U1"); eexists _, _; reflexivity.
  - simpl. tauto.
  - reflexivity.
  - discriminate.
  - left. reflexivity.
  - reflexivity.
  - reflexivity.
Defined.

(** ** The operator on the enforcement paths *)

Lemma self_check_ok ev w s :
  je_user ev <> je_authorized_user ev \/
  (forall what, conversations_invite w (je_channel ev) (ADMIN_ID w) <> Some (OtherError what)) ->
  exists t, invite_admin_on_self_join ev w s = (Ok tt, mkState (st_db s) (st_trace s ++ t)).
Proof.
  intro H. unfold invite_admin_on_self_join. rewrite bind_ask_run.
  destruct (String.eqb (je_user ev) (je_authorized_user ev)) eqn:E.
  - apply String.eqb_eq in E. destruct H as [H | H]; [contradiction|].
    rewrite bind_emit_run. unfold try_slack.
    destruct (conversations_invite w (je_channel ev) (ADMIN_ID w)) as [[err|what]|] eqn:Ei.
    + eexists. unfold emit. simpl. rewrite <- app_assoc. reflexivity.
    + exfalso. exact (H what eq_refl).
    + eexists. reflexivity.
  - exists []. destruct s. simpl. rewrite app_nil_r. reflexivity.
Qed.

(** On join, at level 1 or 2, the operator who is not whitelisted, is no
    bot and fails the identity check of the level is kicked. *)
Lemma enforce_kicks_unverified_operator ch w s st r :
  mem (ADMIN_ID w) (list_whitelisted_db ch (st_db s)) = false ->
  (get_idv_required_level_db ch (st_db s) = 1 \/ get_idv_required_level_db ch (st_db s) = 2) ->
  (users_info_xoxc w (ADMIN_ID w) = Some false \/
   (users_info_xoxc w (ADMIN_ID w) = None /\ users_info w (ADMIN_ID w) <> Some true)) ->
  idv_endpoint w (ADMIN_ID w) = IdvResponse st (BodyJson r) ->
  (if Nat.eqb (get_idv_required_level_db ch (st_db s)) 1 then is_verified_status r
   else is_under18_status r) = false ->
  exists t, snd (enforce_on_join ch (ADMIN_ID w) w s) = mkState (st_db s) (st_trace s ++ t)
            /\ In (EvKick ch (ADMIN_ID w)) t.
Proof.
  intros Hwl Hlvl Hbot Hep Hs.
  unfold enforce_on_join. rewrite bind_ask_run. unfold list_whitelisted.
  rewrite bind_assoc_run, bind_get_db_run, bind_ret_run, Hwl.
  rewrite String.eqb_refl, bind_ret_run.
  unfold get_idv_required_level. rewrite bind_assoc_run, bind_get_db_run, !bind_ret_run.
  cbv beta zeta.
  set (lvl := get_idv_required_level_db ch (st_db s)) in *.
  assert (Hpos : Nat.ltb 0 lvl = true) by (apply Nat.ltb_lt; destruct Hlvl as [-> | ->]; lia).
  rewrite Hpos. cbn [andb].
  destruct (user_is_bot_run (ADMIN_ID w) w s) as [b [t1 E1]].
  assert (Hb : b = false).
  { pose proof (user_is_bot_false (ADMIN_ID w) w s Hbot) as Hf. rewrite E1 in Hf.
    simpl in Hf. congruence. }
  subst b. rewrite (bind_ok_run _ _ _ _ _ _ E1).
  assert (Hidv : exists t2, (if Nat.eqb lvl 1 then is_idved (ADMIN_ID w)
                             else if Nat.eqb lvl 2 then is_idved_under18 (ADMIN_ID w)
                             else ret true) w (mkState (st_db s) (st_trace s ++ t1))
                            = (Ok false, mkState (st_db s) ((st_trace s ++ t1) ++ t2))).
  { destruct Hlvl as [H1 | H2].
    - rewrite H1 in Hs |- *. cbn [Nat.eqb] in Hs |- *.
      destruct (is_idved_run (ADMIN_ID w) w (mkState (st_db s) (st_trace s ++ t1)) st r Hep)
        as [t2 E2].
      exists t2. rewrite E2, Hs. reflexivity.
    - rewrite H2 in Hs |- *. cbn [Nat.eqb] in Hs |- *.
      destruct (is_idved_under18_run (ADMIN_ID w) w (mkState (st_db s) (st_trace s ++ t1)) st r Hep)
        as [t2 E2].
      exists t2. rewrite E2, Hs. reflexivity. }
  destruct Hidv as [t2 E2].
  cbv iota. rewrite (bind_ok_run _ _ _ _ _ _ E2). cbn [andb].
  unfold try_except. rewrite bind_run_cases.
  destruct (kick_trace ch (ADMIN_ID w) w (mkState (st_db s) ((st_trace s ++ t1) ++ t2)))
    as [t3 [rk [Ek _]]].
  rewrite Ek. cbn [st_db st_trace].
  destruct rk as [[]|e|]; unfold emit; cbn [fst snd st_db st_trace].
  - eexists. rewrite <- !app_assoc. split; [reflexivity|].
    apply in_or_app. right. apply in_or_app. right. left. reflexivity.
  - eexists. rewrite <- !app_assoc. split; [reflexivity|].
    apply in_or_app. right. apply in_or_app. right. left. reflexivity.
  - eexists. rewrite <- !app_assoc. split; [reflexivity|].
    apply in_or_app. right. apply in_or_app. right. left. reflexivity.
Qed.

Lemma blam_cmd_add_trace ch first tokens tok u w s :
  String.eqb first "remove" = false ->
  nth_error tokens (if String.eqb first "add" then 1 else 0) = Some tok ->
  _parse_mention tok = Some u ->
  exists t, snd (blam_cmd ch first tokens w s) =
    mkState (exec_op (AddBlam ch u) (st_db s))
      (st_trace s ++ EvStore (AddBlam ch u) :: EvKick ch u :: t).
Proof.
  intros Hr Htok Hu. unfold blam_cmd. cbv zeta. rewrite Hr, orb_false_r.
  assert (Hact : String.eqb (if String.eqb first "add" then first else "add") "remove" = false)
    by (destruct (String.eqb first "add"); [exact Hr | reflexivity]).
  rewrite Htok, Hu, Hact. destruct s as [db tr].
  unfold try_except. rewrite bind_run_cases.
  change (store (AddBlam ch u) w (mkState db tr))
    with (@Ok unit tt, mkState (exec_op (AddBlam ch u) db) (tr ++ [EvStore (AddBlam ch u)])).
  cbv iota beta. rewrite bind_run_cases.
  destruct (kick_trace ch u w (mkState (exec_op (AddBlam ch u) db) (tr ++ [EvStore (AddBlam ch u)])))
    as [t [r [Ek _]]].
  rewrite Ek. simpl st_db. simpl st_trace.
  destruct r as [[]|e|]; cbv iota beta.
  - eexists. unfold respond, emit. simpl. rewrite <- !app_assoc. reflexivity.
  - eexists. unfold bind, respond, emit. simpl. rewrite <- !app_assoc. reflexivity.
  - exists t. simpl. rewrite <- app_assoc. reflexivity.
Qed.

Lemma join_if_public_ok ch w s :
  String.prefix "C" ch = false \/ conversations_join w ch = None ->
  exists t, join_if_public ch w s = (Ok true, mkState (st_db s) (st_trace s ++ t)).
Proof.
  intro H. unfold join_if_public.
  destruct (String.prefix "C" ch) eqn:Ep.
  - destruct H as [H | H]; [discriminate|].
    rewrite bind_ask_run, bind_emit_run, H. eexists. reflexivity.
  - exists []. destruct s. simpl. rewrite app_nil_r. reflexivity.
Qed.

(** An authorized [/blam <@u>] (or [/blam add <@u>]) in a channel it can
    join records the BlamEntry of [u] and kicks [u], whoever [u] is. *)
Lemma handle_blam_blams cmd w s found t0 rest tok u :
  fst (member_scan (fuel w) (cmd_channel_id cmd) (cmd_user_id cmd) None w s) = Ok found ->
  cmd_user_id cmd = ADMIN_ID w \/ found = true ->
  cmd_channel_id cmd <> "" -> split_ws (cmd_text cmd) = t0 :: rest ->
  String.prefix "C" (cmd_channel_id cmd) = false \/ conversations_join w (cmd_channel_id cmd) = None ->
  ~ In (lower t0) ["help"; "usage"; "list"; "idv"; "whitelist"; "remove"] ->
  nth_error (t0 :: rest) (if String.eqb (lower t0) "add" then 1 else 0) = Some tok ->
  _parse_mention tok = Some u ->
  exists t t', snd (handle_blam cmd w s) =
    mkState (exec_op (AddBlam (cmd_channel_id cmd) u) (st_db s))
      (st_trace s ++ t ++ EvStore (AddBlam (cmd_channel_id cmd) u) :: EvKick (cmd_channel_id cmd) u :: t').
Proof.
  intros Hscan Hauth Hch Htok Hjoin Hfirst Hnth Hu.
  destruct (scan_result _ _ _ _ _ _ _ Hscan) as [t1 [E _]].
  assert (Hgate : negb (String.eqb (cmd_user_id cmd) (ADMIN_ID w)) && negb found = false).
  { destruct Hauth as [-> | ->]; [rewrite String.eqb_refl | rewrite andb_false_r]; reflexivity. }
  assert (Hne : forall x, In x ["help"; "usage"; "list"; "idv"; "whitelist"; "remove"] ->
                          String.eqb (lower t0) x = false).
  { intros x Hx. apply String.eqb_neq. intro Heq. apply Hfirst. rewrite Heq. exact Hx. }
  unfold handle_blam. cbv zeta. rewrite bind_ask_run. rewrite (bind_ok_run _ _ _ _ _ _ E).
  rewrite Hgate. apply String.eqb_neq in Hch. rewrite Hch, Htok.
  cbv [negb andb]. cbv iota.
  destruct (join_if_public_ok (cmd_channel_id cmd) w (mkState (st_db s) (st_trace s ++ t1)) Hjoin)
    as [t2 E2].
  rewrite (bind_ok_run _ _ _ _ _ _ E2). cbv beta iota.
  unfold dispatch.
  rewrite (Hne "help"), (Hne "usage"), (Hne "list"), (Hne "idv"), (Hne "whitelist")
    by (simpl; tauto).
  cbv [orb]. cbv iota. cbn [st_db st_trace].
  destruct (blam_cmd_add_trace (cmd_channel_id cmd) (lower t0) (t0 :: rest) tok u w
              (mkState (st_db s) ((st_trace s ++ t1) ++ t2)) (Hne "remove" ltac:(simpl; tauto))
              Hnth Hu) as [t3 E3].
  exists (t1 ++ t2), t3. rewrite E3. simpl. rewrite <- !app_assoc. reflexivity.
Qed.

(** C1 (a defect of the code).  The operator is exempt only on some paths.
    The dry-run count gives 0 for the operator, the policy-change sweep never
    kicks the operator, and on join a channel at level 0 never kicks the
    operator, whatever the blam list and the whitelist.  But on join at
    level 1 or 2 an operator who is not whitelisted, no bot, and fails the
    level's identity check is kicked; and an authorized [/blam <@u>] (or
    [/blam add <@u>]) for the operator records a BlamEntry for the operator
    and kicks the operator. *)
Theorem operator_exempt_on_enforcement_paths ch level lvl wl a w s :
  needs_kick lvl wl (ADMIN_ID w) w s = (Ok 0, s) /\
  (exists t, st_trace (snd (idv_set ch level w s)) = st_trace s ++ t /\
             forall c, ~ In (EvKick c (ADMIN_ID w)) t) /\
  (get_idv_required_level_db ch (st_db s) = 0 ->
   exists t, snd (handle_member_joined_channel (mkJoinEvent (ADMIN_ID w) ch a) w s)
             = mkState (st_db s) (st_trace s ++ t) /\ Forall (fun e => ~ is_kick e) t) /\
  (forall st r,
   a <> ADMIN_ID w ->
   mem (ADMIN_ID w) (list_whitelisted_db ch (st_db s)) = false ->
   (get_idv_required_level_db ch (st_db s) = 1 \/ get_idv_required_level_db ch (st_db s) = 2) ->
   (users_info_xoxc w (ADMIN_ID w) = Some false \/
    (users_info_xoxc w (ADMIN_ID w) = None /\ users_info w (ADMIN_ID w) <> Some true)) ->
   idv_endpoint w (ADMIN_ID w) = IdvResponse st (BodyJson r) ->
   (if Nat.eqb (get_idv_required_level_db ch (st_db s)) 1 then is_verified_status r
    else is_under18_status r) = false ->
   exists t, snd (handle_member_joined_channel (mkJoinEvent (ADMIN_ID w) ch a) w s)
             = mkState (st_db s) (st_trace s ++ t) /\ In (EvKick ch (ADMIN_ID w)) t) /\
  (forall cmd found t0 rest tok,
   cmd_channel_id cmd = ch ->
   fst (member_scan (fuel w) ch (cmd_user_id cmd) None w s) = Ok found ->
   cmd_user_id cmd = ADMIN_ID w \/ found = true ->
   ch <> "" -> split_ws (cmd_text cmd) = t0 :: rest ->
   String.prefix "C" ch = false \/ conversations_join w ch = None ->
   ~ In (lower t0) ["help"; "usage"; "list"; "idv"; "whitelist"; "remove"] ->
   nth_error (t0 :: rest) (if String.eqb (lower t0) "add" then 1 else 0) = Some tok ->
   _parse_mention tok = Some (ADMIN_ID w) ->
   exists t t', snd (handle_blam cmd w s) =
     mkState (exec_op (AddBlam ch (ADMIN_ID w)) (st_db s))
       (st_trace s ++ t ++ EvStore (AddBlam ch (ADMIN_ID w)) :: EvKick ch (ADMIN_ID w) :: t')).
Proof.
  destruct (operator_exempt_count_sweep_join ch level lvl wl a w s) as [P1 [P2 P3]].
  split; [exact P1 | split; [exact P2 | split; [exact P3 | split]]].
  - intros st r Ha Hwl Hlvl Hbot Hep Hs.
    destruct (self_check_ok (mkJoinEvent (ADMIN_ID w) ch a) w s (or_introl (not_eq_sym Ha)))
      as [t1 E1].
    destruct (enforce_kicks_unverified_operator ch w (mkState (st_db s) (st_trace s ++ t1)) st r
                Hwl Hlvl Hbot Hep Hs) as [t2 [E2 H2]].
    exists (t1 ++ t2). unfold handle_member_joined_channel.
    rewrite (bind_ok_run _ _ _ _ _ _ E1). cbn [je_channel je_user]. rewrite E2.
    simpl. rewrite <- app_assoc. split; [reflexivity|]. apply in_or_app. right. exact H2.
  - intros cmd found t0 rest tok <-. apply handle_blam_blams.
Qed.

(** The operator, unverified, joins [C1] at level [required] and is kicked;
    an authorized [/blam <@UADMIN>] in [C1] blams and kicks the operator. *)
Lemma operator_exempt_on_enforcement_paths_witness :
  (exists t, snd (handle_member_joined_channel (mkJoinEvent "UADMIN" "C1" "UBOT") w0
                    (mkState (mkDb [] [] [("C1", 1)]) []))
             = mkState (mkDb [] [] [("C1", 1)]) ([] ++ t) /\ In (EvKick "C1" "UADMIN") t) /\
  (exists t t', snd (handle_blam (mkCommand "C1" "U1" "<@UADMIN>") w0 (mkState empty_db [])) =
     mkState (exec_op (AddBlam "C1" "UADMIN") empty_db)
       ([] ++ t ++ EvStore (AddBlam "C1" "UADMIN") :: EvKick "C1" "UADMIN" :: t')).
Proof.
  destruct (operator_exempt_on_enforcement_paths "C1" "required" 1 [] "UBOT" w0
              (mkState (mkDb [] [] [("C1", 1)]) [])) as [_ [_ [_ [Hj _]]]].
  destruct (operator_exempt_on_enforcement_paths "C1" "required" 1 [] "UBOT" w0
              (mkState empty_db [])) as [_ [_ [_ [_ Hb]]]].
  split.
  - apply (Hj 200 (Some "pending")); first [discriminate | reflexivity | left; reflexivity].
  - apply (Hb (mkCommand "C1" "U1" "<@UADMIN>") true "<@UADMIN>" [] "<@UADMIN>");
      first [reflexivity | discriminate | right; reflexivity | left; reflexivity
            | simpl; intuition discriminate].
Defined.
